(** * notion_mcp.server: the tool handlers and the recent-pages resource

    A shallow embedding of [src/notion_mcp/server.py].  The handlers work on
    decoded JSON (Python [dict], [list], [str], ...), so the embedding has a
    type of Python values with the handful of dynamic operations the handlers
    use ([x.get(k)], [k in x], [x[k]], [x[0]], [x.items()], iteration,
    truthiness, [str.join]), each with the exception the interpreter raises
    when the operand has the wrong shape.  The Notion client is an oracle that
    answers each call from the history of the calls made so far; a handler is
    a program over that oracle, and running it yields its return value together
    with the calls it made. *)

From Stdlib Require Import String Ascii List ZArith Bool Lia DecimalString.
Import ListNotations.
Local Open Scope string_scope.
Set Warnings "-register-all".

(** ** Python values *)

(** A decoded JSON document.  A [dict] is kept as an association list in
    insertion order, since [items()] iterates in that order; its keys are
    strings, and a key is looked up at its first entry.  A float is kept as
    its IEEE-754 bit pattern: the handlers never compute with one, they only
    test it for truth.  A [str] is kept as the string of its bytes; the
    handlers take a string apart only where the data has the wrong shape
    (a string in the place of a list), and what they do next with a piece
    raises whatever the piece is. *)
Inductive value : Type :=
| VNone
| VBool (b : bool)
| VInt (n : Z)
| VFloat (bits : Z)
| VStr (s : string)
| VList (items : list value)
| VDict (entries : list (string * value)).

(** The exceptions that can reach an [except] clause of the module:
    the client's typed [APIResponseError], the built-in errors raised by
    operations on ill-shaped data, and any other [Exception] the client may
    raise (time-outs, transport errors).  Each carries what [str(e)] prints. *)
Inductive exn : Type :=
| APIResponseError (message : string)
| KeyError (message : string)
| AttributeError (message : string)
| TypeError (message : string)
| IndexError (message : string)
| OtherError (message : string).

Definition str_exn (e : exn) : string :=
  match e with
  | APIResponseError m | KeyError m | AttributeError m
  | TypeError m | IndexError m | OtherError m => m
  end.

(** Result of a computation that may raise. *)
Inductive res (A : Type) : Type :=
| Ok (a : A)
| Err (e : exn).
Arguments Ok {A} a.
Arguments Err {A} e.

Definition res_bind {A B} (r : res A) (k : A -> res B) : res B :=
  match r with
  | Ok a => k a
  | Err e => Err e
  end.

Notation "x <~ e ;; k" := (res_bind e (fun x => k))
  (at level 61, e at next level, right associativity).

(** ** Strings *)

Definition nl : string := String (ascii_of_nat 10) EmptyString.

(** [needle in hay] on strings. *)
Fixpoint contains (needle hay : string) : bool :=
  String.prefix needle hay ||
  match hay with
  | EmptyString => false
  | String _ rest => contains needle rest
  end.

Definition nonempty (s : string) : bool :=
  match s with
  | EmptyString => false
  | String _ _ => true
  end.

Definition decimal (n : nat) : string :=
  NilZero.string_of_uint (Nat.to_uint n).

(** [sep.join(parts)] for parts already known to be strings. *)
Fixpoint join (sep : string) (parts : list string) : string :=
  match parts with
  | [] => ""
  | [p] => p
  | p :: rest => p ++ sep ++ join sep rest
  end.

(** ** Dynamic operations *)

Definition type_name (v : value) : string :=
  match v with
  | VNone => "NoneType"
  | VBool _ => "bool"
  | VInt _ => "int"
  | VFloat _ => "float"
  | VStr _ => "str"
  | VList _ => "list"
  | VDict _ => "dict"
  end.

(** Truth value, as tested by [if x:].  A float is false when it is plus or
    minus zero, that is when all bits but the sign bit are clear. *)
Definition truthy (v : value) : bool :=
  match v with
  | VNone => false
  | VBool b => b
  | VInt n => negb (Z.eqb n 0)
  | VFloat bits => negb (Z.eqb (Z.land bits (Z.ones 63)) 0)
  | VStr s => nonempty s
  | VList l => match l with [] => false | _ :: _ => true end
  | VDict d => match d with [] => false | _ :: _ => true end
  end.

Fixpoint dict_get (d : list (string * value)) (k : string) : option value :=
  match d with
  | [] => None
  | (k', v) :: rest => if String.eqb k k' then Some v else dict_get rest k
  end.

Definition no_attribute (x : value) (attr : string) : exn :=
  AttributeError ("'" ++ type_name x ++ "' object has no attribute '" ++ attr ++ "'").

Definition not_subscriptable (x : value) : exn :=
  TypeError ("'" ++ type_name x ++ "' object is not subscriptable").

(** [x.get(k, default)]; [x.get(k)] is [py_get x k VNone]. *)
Definition py_get (x : value) (k : string) (default : value) : res value :=
  match x with
  | VDict d =>
      Ok (match dict_get d k with Some v => v | None => default end)
  | _ => Err (no_attribute x "get")
  end.

(** [x.get(key, default)] where the key is itself a run-time value: a list or
    a dict is unhashable; any other key that is not a string equals no key of
    a decoded JSON object. *)
Definition py_get_key (x key default : value) : res value :=
  match x with
  | VDict d =>
      match key with
      | VStr k => Ok (match dict_get d k with Some v => v | None => default end)
      | VList _ | VDict _ =>
          Err (TypeError ("unhashable type: '" ++ type_name key ++ "'"))
      | _ => Ok default
      end
  | _ => Err (no_attribute x "get")
  end.

Definition is_str (k : string) (v : value) : bool :=
  match v with
  | VStr s => String.eqb s k
  | _ => false
  end.

(** [k in x] for a string literal [k]: key membership on a dict, element
    membership on a list, substring test on a string. *)
Definition py_contains (k : string) (x : value) : res bool :=
  match x with
  | VDict d => Ok (match dict_get d k with Some _ => true | None => false end)
  | VList l => Ok (existsb (is_str k) l)
  | VStr s => Ok (contains k s)
  | _ => Err (TypeError ("argument of type '" ++ type_name x ++ "' is not iterable"))
  end.

(** [x[k]] for a string literal [k]. *)
Definition py_item (x : value) (k : string) : res value :=
  match x with
  | VDict d =>
      match dict_get d k with
      | Some v => Ok v
      | None => Err (KeyError ("'" ++ k ++ "'"))
      end
  | VList _ => Err (TypeError "list indices must be integers or slices, not str")
  | VStr _ => Err (TypeError "string indices must be integers, not 'str'")
  | _ => Err (not_subscriptable x)
  end.

(** [x[0]]. *)
Definition py_first (x : value) : res value :=
  match x with
  | VList (v :: _) => Ok v
  | VList [] => Err (IndexError "list index out of range")
  | VStr (String c _) => Ok (VStr (String c EmptyString))
  | VStr EmptyString => Err (IndexError "string index out of range")
  | VDict _ => Err (KeyError "0")
  | _ => Err (not_subscriptable x)
  end.

(** [x.items()]. *)
Definition py_items (x : value) : res (list (string * value)) :=
  match x with
  | VDict d => Ok d
  | _ => Err (no_attribute x "items")
  end.

(** The elements a [for] loop or a comprehension draws from [x]. *)
Definition py_iter (x : value) : res (list value) :=
  match x with
  | VList l => Ok l
  | VStr s => Ok (map (fun c => VStr (String c EmptyString)) (list_ascii_of_string s))
  | VDict d => Ok (map (fun kv => VStr (fst kv)) d)
  | _ => Err (TypeError ("'" ++ type_name x ++ "' object is not iterable"))
  end.

(** [x == k] for a string literal [k]. *)
Definition py_eq_str (x : value) (k : string) : bool := is_str k x.

(** [sep.join(parts)] where the parts are run-time values: the first part
    that is not a string raises. *)
Fixpoint py_join_from (i : nat) (parts : list value) : res string :=
  match parts with
  | [] => Ok ""
  | VStr s :: rest => t <~ py_join_from (S i) rest ;; Ok (s ++ t)
  | v :: _ =>
      Err (TypeError ("sequence item " ++ decimal i ++ ": expected str instance, "
                      ++ type_name v ++ " found"))
  end.

Definition py_join (parts : list value) : res string := py_join_from 0 parts.

(** ** The Notion client *)

(** The client methods the module calls.  Keyword arguments are kept as the
    list of (name, value) pairs in the order they are written. *)
Inductive call : Type :=
| PagesCreate (kwargs : list (string * value))
| PagesRetrieve (page_id : string)
| PagesUpdate (page_id : string) (kwargs : list (string * value))
| Search (kwargs : list (string * value))
| BlocksChildrenList (block_id : string)
| BlocksChildrenAppend (block_id : string) (children : value).

Inductive outcome : Type :=
| Returns (response : value)
| Raises (e : exn).

Definition event : Type := call * outcome.

(** The remote service is stateful and not under the module's control: its
    answer to a call may depend on everything that was asked before. *)
Definition client : Type := list event -> call -> outcome.

(** ** Handler programs *)

(** The body of a [try] block: local computation interleaved with client
    calls.  A call that raises aborts the body, like a local error. *)
Inductive prog (A : Type) : Type :=
| Ret (a : A)
| Raise (e : exn)
| Call (c : call) (k : value -> prog A).
Arguments Ret {A} a.
Arguments Raise {A} e.
Arguments Call {A} c k.

Fixpoint bind {A B} (p : prog A) (f : A -> prog B) : prog B :=
  match p with
  | Ret a => f a
  | Raise e => Raise e
  | Call c k => Call c (fun v => bind (k v) f)
  end.

Definition lift {A} (r : res A) : prog A :=
  match r with
  | Ok a => Ret a
  | Err e => Raise e
  end.

Definition request (c : call) : prog value := Call c Ret.

Notation "x <- e ;; k" := (bind e (fun x => k))
  (at level 61, e at next level, right associativity).

(** Running a body against a client, from the history [hist] of earlier
    calls: the result, and the events this run added, oldest first. *)
Fixpoint run {A} (p : prog A) (notion : client) (hist : list event)
  : res A * list event :=
  match p with
  | Ret a => (Ok a, [])
  | Raise e => (Err e, [])
  | Call c k =>
      match notion hist c with
      | Returns v =>
          let (r, evs) := run (k v) notion (hist ++ [(c, Returns v)]) in
          (r, (c, Returns v) :: evs)
      | Raises e => (Err e, [(c, Raises e)])
      end
  end.

Definition handler (A : Type) : Type := client -> list event -> A * list event.

(** ** Result envelopes *)

Definition failure (message : string) : value :=
  VDict [("success", VBool false); ("error", VStr message)].

(** The two [except] clauses every tool ends with.  Each also writes the
    error to the log, which is not modelled. *)
Definition on_exception (e : exn) : value :=
  match e with
  | APIResponseError m => failure ("Notion API error: " ++ m)
  | _ => failure (str_exn e)
  end.

(** [try: body  except APIResponseError ...  except Exception ...]; a
    [return] inside the body leaves the handler with that value. *)
Definition try_except (body : prog value) : handler value :=
  fun notion hist =>
    match run body notion hist with
    | (Ok v, evs) => (v, evs)
    | (Err e, evs) => (on_exception e, evs)
    end.

(** ** Payloads *)

(** [{"title": {"title": [{"text": {"content": title}}]}}] *)
Definition title_properties (title : string) : value :=
  VDict [("title",
          VDict [("title",
                  VList [VDict [("text", VDict [("content", VStr title)])]])])].

(** The paragraph block of [create_page] and [append_to_page]. *)
Definition paragraph_block (content : string) : value :=
  VDict [("object", VStr "block");
         ("type", VStr "paragraph");
         ("paragraph",
          VDict [("rich_text",
                  VList [VDict [("type", VStr "text");
                                ("text", VDict [("content", VStr content)])]])])].

(** [{"property": "object", "value": "page"}] *)
Definition page_filter : value :=
  VDict [("property", VStr "object"); ("value", VStr "page")].

(** ** Loops *)

(** A [for] loop that appends one entry per element. *)
Fixpoint for_each {A B} (f : A -> res B) (l : list A) : res (list B) :=
  match l with
  | [] => Ok []
  | a :: rest =>
      b <~ f a ;;
      bs <~ for_each f rest ;;
      Ok (b :: bs)
  end.

(** A [for] loop that appends an entry for some elements only. *)
Fixpoint for_each_maybe {A B} (f : A -> res (option B)) (l : list A)
  : res (list B) :=
  match l with
  | [] => Ok []
  | a :: rest =>
      ob <~ f a ;;
      bs <~ for_each_maybe f rest ;;
      Ok (match ob with Some b => b :: bs | None => bs end)
  end.

(** ** Title extraction *)

(** [prop_value["title"][0]["plain_text"]] *)
Definition first_plain_text (prop_value : value) : res value :=
  fragments <~ py_item prop_value "title" ;;
  fragment <~ py_first fragments ;;
  py_item fragment "plain_text".

(** The scan over [page["properties"].items()], starting from the title
    ["Untitled"] and leaving the loop at the first match. *)
Fixpoint find_title (items : list (string * value)) : res value :=
  match items with
  | [] => Ok (VStr "Untitled")
  | (_, prop_value) :: rest =>
      ty <~ py_get prop_value "type" VNone ;;
      if py_eq_str ty "title" then
        t <~ py_get prop_value "title" VNone ;;
        if truthy t then first_plain_text prop_value else find_title rest
      else find_title rest
  end.

(** The title block of [get_page_content] (lines 220-225). *)
Definition get_page_content_title (page : value) : res value :=
  has_properties <~ py_contains "properties" page ;;
  if has_properties then
    properties <~ py_item page "properties" ;;
    items <~ py_items properties ;;
    find_title items
  else Ok (VStr "Untitled").

(** The title block of [get_recent_pages] (lines 454-459), the same scan. *)
Definition get_recent_pages_title (page : value) : res value :=
  has_properties <~ py_contains "properties" page ;;
  if has_properties then
    properties <~ py_item page "properties" ;;
    items <~ py_items properties ;;
    find_title items
  else Ok (VStr "Untitled").

(** The title block of [search_pages] (lines 165-175): the property named
    ["title"] is read first, and the scan runs only when no property has that
    name. *)
Definition search_pages_title (page : value) : res value :=
  has_properties <~ py_contains "properties" page ;;
  named <~ (if has_properties then
              properties <~ py_item page "properties" ;;
              py_contains "title" properties
            else Ok false) ;;
  if named then
    properties <~ py_item page "properties" ;;
    title_property <~ py_item properties "title" ;;
    t <~ py_get title_property "title" VNone ;;
    if truthy t then first_plain_text title_property
    else Ok (VStr "Untitled")
  else
    has_properties <~ py_contains "properties" page ;;
    if has_properties then
      properties <~ py_item page "properties" ;;
      items <~ py_items properties ;;
      find_title items
    else Ok (VStr "Untitled").

(** ** Tools *)

(** The success envelope shared by [create_page], [update_page] and
    [create_database_entry]; the fields are evaluated in this order. *)
Definition page_envelope (response : value) (message : string) : prog value :=
  id <- lift (py_item response "id") ;;
  url <- lift (py_item response "url") ;;
  Ret (VDict [("success", VBool true);
              ("page_id", id);
              ("url", url);
              ("message", VStr message)]).

(** [if parent_page_id:] holds for a string that is given and not empty. *)
Definition given (parent_page_id : option string) : option string :=
  match parent_page_id with
  | Some id => if nonempty id then Some id else None
  | None => None
  end.

Definition create_page_body (title content : string) (parent_page_id : option string) : prog value :=
  let properties := title_properties title in
  let children := VList [paragraph_block content] in
  let message := "Page '" ++ title ++ "' created successfully" in
  match given parent_page_id with
  | Some id =>
      let parent := VDict [("page_id", VStr id)] in
      response <- request (PagesCreate [("parent", parent);
                                        ("properties", properties);
                                        ("children", children)]) ;;
      page_envelope response message
  | None =>
      search_results <- request (Search [("filter", page_filter);
                                         ("page_size", VInt 1)]) ;;
      found <- lift (py_get search_results "results" VNone) ;;
      if truthy found then
        results <- lift (py_item search_results "results") ;;
        first <- lift (py_first results) ;;
        id <- lift (py_item first "id") ;;
        let parent := VDict [("page_id", id)] in
        response <- request (PagesCreate [("parent", parent);
                                          ("properties", properties);
                                          ("children", children)]) ;;
        page_envelope response message
      else
        Ret (VDict [("error",
                     VStr "No parent page specified and no existing pages found. Please provide a parent_page_id.")])
  end.

Definition create_page (title content : string) (parent_page_id : option string) : handler value :=
  try_except (create_page_body title content parent_page_id).

(** One iteration of the loop of [search_pages]. *)
Definition search_entry (page : value) : res value :=
  title <~ search_pages_title page ;;
  id <~ py_item page "id" ;;
  url <~ py_item page "url" ;;
  last_edited <~ py_get page "last_edited_time" (VStr "Unknown") ;;
  Ok (VDict [("id", id);
             ("title", title);
             ("url", url);
             ("last_edited", last_edited)]).

Definition search_pages_body (query : string) (page_size : Z) : prog value :=
  response <- request (Search [("query", VStr query);
                               ("filter", page_filter);
                               ("page_size", VInt page_size)]) ;;
  found <- lift (py_get response "results" (VList [])) ;;
  pages <- lift (py_iter found) ;;
  results <- lift (for_each search_entry pages) ;;
  Ret (VDict [("success", VBool true);
              ("count", VInt (Z.of_nat (length results)));
              ("results", VList results)]).

Definition search_pages (query : string) (page_size : Z) : handler value :=
  try_except (search_pages_body query page_size).

(** [rt.get("plain_text", "")] *)
Definition fragment_text (rt : value) : res value :=
  py_get rt "plain_text" (VStr "").

(** One iteration of the block loop of [get_page_content]: the entry to
    append, if any. *)
Definition block_entry (block : value) : res (option value) :=
  block_type <~ py_get block "type" VNone ;;
  block_content <~ py_get_key block block_type (VDict []) ;;
  has_rich_text <~ py_contains "rich_text" block_content ;;
  if has_rich_text then
    rich_text <~ py_item block_content "rich_text" ;;
    fragments <~ py_iter rich_text ;;
    parts <~ for_each fragment_text fragments ;;
    text <~ py_join parts ;;
    if nonempty text then
      Ok (Some (VDict [("type", block_type); ("text", VStr text)]))
    else Ok None
  else Ok None.

Definition get_page_content_body (page_id : string) : prog value :=
  page <- request (PagesRetrieve page_id) ;;
  title <- lift (get_page_content_title page) ;;
  blocks_response <- request (BlocksChildrenList page_id) ;;
  found <- lift (py_get blocks_response "results" (VList [])) ;;
  blocks <- lift (py_iter found) ;;
  content_blocks <- lift (for_each_maybe block_entry blocks) ;;
  url <- lift (py_item page "url") ;;
  last_edited <- lift (py_get page "last_edited_time" VNone) ;;
  Ret (VDict [("success", VBool true);
              ("page_id", VStr page_id);
              ("title", title);
              ("url", url);
              ("content", VList content_blocks);
              ("last_edited", last_edited)]).

Definition get_page_content (page_id : string) : handler value :=
  try_except (get_page_content_body page_id).

Definition append_to_page_body (page_id content : string) : prog value :=
  let new_block := paragraph_block content in
  _ <- request (BlocksChildrenAppend page_id (VList [new_block])) ;;
  Ret (VDict [("success", VBool true);
              ("message", VStr ("Content appended to page " ++ page_id))]).

Definition append_to_page (page_id content : string) : handler value :=
  try_except (append_to_page_body page_id content).

(** The partial update of [update_page]: one field per supplied argument. *)
Definition update_data (title : option string) (archived : option bool)
  : list (string * value) :=
  match title with
  | Some t => [("properties", title_properties t)]
  | None => []
  end ++
  match archived with
  | Some a => [("archived", VBool a)]
  | None => []
  end.

Definition update_page_body (page_id : string) (title : option string)
  (archived : option bool) : prog value :=
  let data := update_data title archived in
  match data with
  | [] => Ret (failure "No update parameters provided")
  | _ :: _ =>
      response <- request (PagesUpdate page_id data) ;;
      page_envelope response "Page updated successfully"
  end.

Definition update_page (page_id : string) (title : option string)
  (archived : option bool) : handler value :=
  try_except (update_page_body page_id title archived).

Definition create_database_entry_body (database_id : string) (properties : value) : prog value :=
  response <- request (PagesCreate
                         [("parent", VDict [("database_id", VStr database_id)]);
                          ("properties", properties)]) ;;
  page_envelope response "Database entry created successfully".

Definition create_database_entry (database_id : string) (properties : value) : handler value :=
  try_except (create_database_entry_body database_id properties).

(** ** The recent-pages resource *)

Section Resource.

(** The built-in [str()] an f-string applies to an interpolated value; it is
    the interpreter's, not this module's.  On a string it is the identity. *)
Variable py_str : value -> string.

(** The four lines one page adds to [output]. *)
Definition recent_entry (page : value) : res (list string) :=
  title <~ get_recent_pages_title page ;;
  id <~ py_item page "id" ;;
  url <~ py_item page "url" ;;
  last_edited <~ py_get page "last_edited_time" (VStr "Unknown") ;;
  Ok ["- **" ++ py_str title ++ "**";
      "  - ID: `" ++ py_str id ++ "`";
      "  - URL: " ++ py_str url;
      "  - Last edited: " ++ py_str last_edited ++ nl].

Definition get_recent_pages : handler string :=
  fun notion hist =>
    let body :=
      response <- request (Search [("filter", page_filter);
                                   ("sort", VDict [("direction", VStr "descending");
                                                   ("timestamp", VStr "last_edited_time")]);
                                   ("page_size", VInt 20)]) ;;
      found <- lift (py_get response "results" (VList [])) ;;
      pages <- lift (py_iter found) ;;
      entries <- lift (for_each recent_entry pages) ;;
      Ret (join nl (("# Recently Edited Pages" ++ nl) :: concat entries)) in
    match run body notion hist with
    | (Ok text, evs) => (text, evs)
    | (Err e, evs) => ("Error retrieving recent pages: " ++ str_exn e, evs)
    end.

End Resource.

(** ** The registered tools *)

(** A request to one of the six functions registered with [@mcp.tool()]. *)
Inductive tool : Type :=
| CreatePage (title content : string) (parent_page_id : option string)
| SearchPages (query : string) (page_size : Z)
| GetPageContent (page_id : string)
| AppendToPage (page_id content : string)
| UpdatePage (page_id : string) (title : option string) (archived : option bool)
| CreateDatabaseEntry (database_id : string) (properties : value).

Definition invoke (t : tool) : handler value :=
  match t with
  | CreatePage title content parent_page_id => create_page title content parent_page_id
  | SearchPages query page_size => search_pages query page_size
  | GetPageContent page_id => get_page_content page_id
  | AppendToPage page_id content => append_to_page page_id content
  | UpdatePage page_id title archived => update_page page_id title archived
  | CreateDatabaseEntry database_id properties => create_database_entry database_id properties
  end.

(** The [try] block behind each registered tool. *)
Definition body (t : tool) : prog value :=
  match t with
  | CreatePage title content parent_page_id => create_page_body title content parent_page_id
  | SearchPages query page_size => search_pages_body query page_size
  | GetPageContent page_id => get_page_content_body page_id
  | AppendToPage page_id content => append_to_page_body page_id content
  | UpdatePage page_id title archived => update_page_body page_id title archived
  | CreateDatabaseEntry database_id properties => create_database_entry_body database_id properties
  end.

(** ** Reading results *)

(** The field [k] of a returned mapping, if the value is a mapping that has
    one. *)
Definition field (v : value) (k : string) : option value :=
  match v with
  | VDict d => dict_get d k
  | _ => None
  end.

(** A mapping with a boolean [success] field. *)
Definition has_success_flag (v : value) : Prop :=
  exists d b, v = VDict d /\ dict_get d "success" = Some (VBool b).

(** The failure envelope the spec asks for after exception [e]. *)
Definition enveloped (e : exn) (v : value) : Prop :=
  exists msg,
    v = VDict [("success", VBool false); ("error", VStr msg)] /\
    match e with
    | APIResponseError m =>
        msg = "Notion API error: " ++ m /\
        String.prefix "Notion API error:" msg = true
    | _ => msg = str_exn e
    end.

(** Every value a program can return satisfies [P]. *)
Fixpoint all_returns {A} (P : A -> Prop) (p : prog A) : Prop :=
  match p with
  | Ret a => P a
  | Raise _ => True
  | Call _ k => forall v, all_returns P (k v)
  end.

(** ** Scenarios *)

(** A workspace with no page: every search comes back empty, and nothing
    can be retrieved. *)
Definition empty_workspace : client :=
  fun _ c =>
    match c with
    | Search _ => Returns (VDict [("object", VStr "list"); ("results", VList [])])
    | _ => Raises (APIResponseError "Could not find object")
    end.

(** A service that answers every call with a 404. *)
Definition not_found : client :=
  fun _ _ => Raises (APIResponseError "Could not find page with ID: p1").

(** The value [create_page] returns when it finds no parent (lines 117-119). *)
Definition no_parent_result : value :=
  VDict [("error",
          VStr "No parent page specified and no existing pages found. Please provide a parent_page_id.")].

Definition is_pages_create (ev : event) : bool :=
  match fst ev with
  | PagesCreate _ => true
  | _ => false
  end.

(** A page object as the service sends it, with its title under the
    property named ["title"]. *)
Definition sample_page (id title : string) : value :=
  VDict [("object", VStr "page");
         ("id", VStr id);
         ("last_edited_time", VStr "2024-05-01T10:00:00.000Z");
         ("properties",
          VDict [("title",
                  VDict [("id", VStr "title");
                         ("type", VStr "title");
                         ("title", VList [VDict [("type", VStr "text");
                                                 ("plain_text", VStr title)]])])]);
         ("url", VStr ("https://www.notion.so/" ++ id))].

(** A service that answers every search with the same six pages, whatever
    [page_size] it is asked for. *)
Definition six_pages : client :=
  fun _ c =>
    match c with
    | Search _ =>
        Returns (VDict [("object", VStr "list");
                        ("results",
                         VList [sample_page "p1" "One"; sample_page "p2" "Two";
                                sample_page "p3" "Three"; sample_page "p4" "Four";
                                sample_page "p5" "Five"; sample_page "p6" "Six"])])
    | _ => Raises (APIResponseError "Could not find object")
    end.

(** A block of the given type with the given rich-text fragments. *)
Definition sample_block (ty : string) (texts : list string) : value :=
  VDict [("object", VStr "block");
         ("type", VStr ty);
         (ty, VDict [("rich_text",
                      VList (map (fun s => VDict [("type", VStr "text");
                                                  ("plain_text", VStr s)]) texts))])].

(** A page with three child blocks, the second of which has no text. *)
Definition three_blocks : client :=
  fun _ c =>
    match c with
    | PagesRetrieve id => Returns (sample_page id "Minutes")
    | BlocksChildrenList _ =>
        Returns (VDict [("object", VStr "list");
                        ("results",
                         VList [sample_block "heading_1" ["Agenda"];
                                sample_block "paragraph" [];
                                sample_block "paragraph" ["Budget"; " review"]])])
    | _ => Raises (APIResponseError "Could not find object")
    end.

(** ** Shapes of remote objects *)

(** All fragments' text, in order. *)
Definition concat_texts (texts : list string) : string :=
  fold_right String.append "" texts.

(** [rt] is a rich-text fragment whose plain text is [s]; a fragment without
    a [plain_text] field counts as empty. *)
Definition fragment_of (rt : value) (s : string) : Prop :=
  exists d, rt = VDict d /\
            match dict_get d "plain_text" with
            | Some v => v = VStr s
            | None => s = ""
            end.

(** [block] is a block of type [ty] whose payload, stored under the key
    [ty], has the rich-text fragments [texts]; a payload without a
    [rich_text] field has none. *)
Definition block_of (block : value) (ty : string) (texts : list string) : Prop :=
  exists d c,
    block = VDict d /\
    dict_get d "type" = Some (VStr ty) /\
    dict_get d ty = Some (VDict c) /\
    match dict_get c "rich_text" with
    | Some rich_text =>
        exists fragments, rich_text = VList fragments /\
                          Forall2 fragment_of fragments texts
    | None => texts = []
    end.

(** The content entries the spec asks for: one per block with text, in
    order. *)
Definition text_entries (views : list (string * list string)) : list value :=
  map (fun v => VDict [("type", VStr (fst v));
                       ("text", VStr (concat_texts (snd v)))])
      (filter (fun v => nonempty (concat_texts (snd v))) views).

(** What [prop_value.get("title")] gives on a descriptor with entries [d]. *)
Definition title_field (d : list (string * value)) : value :=
  match dict_get d "title" with
  | Some v => v
  | None => VNone
  end.

(** A property descriptor that holds no title: a mapping that is not tagged
    ["title"], or whose title sequence is empty or missing. *)
Definition untitled (prop_value : value) : Prop :=
  exists d, prop_value = VDict d /\
            (dict_get d "type" <> Some (VStr "title") \/
             truthy (title_field d) = false).

(** A typed property descriptor, as the service sends it: the payload sits
    under the key named by the type tag, so a descriptor that carries a title
    sequence is tagged ["title"]. *)
Definition typed (prop_value : value) : Prop :=
  forall d, prop_value = VDict d ->
            truthy (title_field d) = true ->
            dict_get d "type" = Some (VStr "title").

(** [page] is a mapping whose [properties], if it has any, is the mapping
    [props]. *)
Definition properties_of (page : value) (props : list (string * value)) : Prop :=
  exists entries,
    page = VDict entries /\
    (dict_get entries "properties" = Some (VDict props) \/
     (dict_get entries "properties" = None /\ props = [])).

(** A database row whose title property is named ["Name"], next to a text
    property that happens to be named ["title"]. *)
Definition clash_properties : list (string * value) :=
  [("Name",
    VDict [("id", VStr "title");
           ("type", VStr "title");
           ("title", VList [VDict [("type", VStr "text");
                                   ("plain_text", VStr "Project plan")]])]);
   ("title",
    VDict [("id", VStr "a%3Ab");
           ("type", VStr "rich_text");
           ("rich_text", VList [VDict [("type", VStr "text");
                                       ("plain_text", VStr "short label")]])])].

Definition clash_page : value :=
  VDict [("object", VStr "page");
         ("id", VStr "p7");
         ("last_edited_time", VStr "2024-05-01T10:00:00.000Z");
         ("properties", VDict clash_properties);
         ("url", VStr "https://www.notion.so/p7")].

Definition clash_workspace : client :=
  fun _ c =>
    match c with
    | Search _ =>
        Returns (VDict [("object", VStr "list"); ("results", VList [clash_page])])
    | PagesRetrieve _ => Returns clash_page
    | BlocksChildrenList _ =>
        Returns (VDict [("object", VStr "list"); ("results", VList [])])
    | _ => Raises (APIResponseError "Could not find object")
    end.


(** A title in two fragments. *)
Definition split_title : list (string * value) :=
  [("id", VStr "title");
   ("type", VStr "title");
   ("title", VList [VDict [("type", VStr "text"); ("plain_text", VStr "Road")];
                    VDict [("type", VStr "text"); ("plain_text", VStr "map")]])].

Definition split_page : value :=
  VDict [("object", VStr "page");
         ("id", VStr "p9");
         ("properties",
          VDict [("Done", VDict [("id", VStr "y"); ("type", VStr "checkbox");
                                 ("checkbox", VBool false)]);
                 ("Task", VDict split_title)]);
         ("url", VStr "https://www.notion.so/p9")].

(** ** Call discipline *)

(** A program makes at most [n] calls, whatever the client answers. *)
Fixpoint calls_bounded {A} (n : nat) (p : prog A) {struct p} : Prop :=
  match p with
  | Ret _ | Raise _ => True
  | Call _ k =>
      match n with
      | O => False
      | S m => forall v, calls_bounded m (k v)
      end
  end.

(** Every call a program can make satisfies [P]. *)
Fixpoint makes_only {A} (P : call -> bool) (p : prog A) : Prop :=
  match p with
  | Ret _ | Raise _ => True
  | Call c k => P c = true /\ forall v, makes_only P (k v)
  end.

(** The client methods that change nothing in the workspace. *)
Definition is_read (c : call) : bool :=
  match c with
  | Search _ | PagesRetrieve _ | BlocksChildrenList _ => true
  | PagesCreate _ | PagesUpdate _ _ | BlocksChildrenAppend _ _ => false
  end.

(** The most calls one invocation of a tool can make. *)
Definition call_budget (t : tool) : nat :=
  match t with
  | CreatePage _ _ parent_page_id =>
      match given parent_page_id with
      | Some _ => 1
      | None => 2
      end
  | GetPageContent _ => 2
  | UpdatePage _ title archived =>
      match title, archived with
      | None, None => 0
      | _, _ => 1
      end
  | SearchPages _ _ | AppendToPage _ _ | CreateDatabaseEntry _ _ => 1
  end.

(** The event of a call that came back with a response. *)
Definition returned (ev : event) : Prop :=
  exists response, snd ev = Returns response.

(** A well-formed envelope: a success without an [error], or a failure with
    an [error] string. *)
Definition well_formed_envelope (v : value) : Prop :=
  (field v "success" = Some (VBool true) /\ field v "error" = None) \/
  (field v "success" = Some (VBool false) /\
   exists message, field v "error" = Some (VStr message)).

(** A service that creates what it is asked to and answers with the new
    page; its search finds one page, ["p1"]. *)
Definition creating : client :=
  fun _ c =>
    match c with
    | PagesCreate _ | PagesUpdate _ _ => Returns (sample_page "p2" "Notes")
    | Search _ =>
        Returns (VDict [("object", VStr "list");
                        ("results", VList [sample_page "p1" "Home"])])
    | _ => Raises (APIResponseError "Could not find object")
    end.

(** A service whose answers to a write carry no [id]. *)
Definition terse : client :=
  fun _ _ => Returns (VDict [("object", VStr "page")]).

(** A search hit that lacks its [url]. *)
Definition broken_page : value :=
  VDict [("object", VStr "page"); ("id", VStr "p3")].

(** A service whose search finds two good pages around a broken one. *)
Definition one_broken : client :=
  fun _ c =>
    match c with
    | Search _ =>
        Returns (VDict [("object", VStr "list");
                        ("results", VList [sample_page "p1" "One";
                                           broken_page;
                                           sample_page "p2" "Two"])])
    | _ => Raises (APIResponseError "Could not find object")
    end.

(** What [search_pages] reports of a hit: its [id], the title, its [url]
    and its [last_edited_time], or ["Unknown"] for a hit that has none. *)
Definition reports (page entry : value) : Prop :=
  exists d title,
    page = VDict d /\
    search_pages_title page = Ok title /\
    field entry "id" = dict_get d "id" /\
    field entry "title" = Some title /\
    field entry "url" = dict_get d "url" /\
    field entry "last_edited" =
      Some (match dict_get d "last_edited_time" with
            | Some v => v
            | None => VStr "Unknown"
            end).

(** A service whose answers never have a [results] field. *)
Definition bare : client :=
  fun _ _ => Returns (VDict [("object", VStr "list")]).

(** A simple [str()]: the identity on strings, and a mark for the rest. *)
Definition show (v : value) : string :=
  match v with
  | VStr s => s
  | _ => "?"
  end.

(** The title, [id], [url] and time of last edit that [get_recent_pages]
    prints for a page, when they are strings; a page without
    [last_edited_time] is printed with ["Unknown"]. *)
Definition printed_as (page : value) (row : string * string * string * string) : Prop :=
  let '(title, id, url, last_edited) := row in
  exists d,
    page = VDict d /\
    get_recent_pages_title page = Ok (VStr title) /\
    dict_get d "id" = Some (VStr id) /\
    dict_get d "url" = Some (VStr url) /\
    match dict_get d "last_edited_time" with
    | Some v => v = VStr last_edited
    | None => last_edited = "Unknown"
    end.

(** The four lines of a page in the listing. *)
Definition lines_of (row : string * string * string * string) : list string :=
  let '(title, id, url, last_edited) := row in
  ["- **" ++ title ++ "**";
   "  - ID: `" ++ id ++ "`";
   "  - URL: " ++ url;
   "  - Last edited: " ++ last_edited ++ nl].

(** A content entry with a text that is not empty. *)
Definition has_text (entry : value) : Prop :=
  exists ty text,
    entry = VDict [("type", ty); ("text", VStr text)] /\ nonempty text = true.

(** A fragment whose [plain_text] is there but is not a string. *)
Definition odd_fragment (rt : value) : Prop :=
  exists d v, rt = VDict d /\ dict_get d "plain_text" = Some v /\
              forall s, v <> VStr s.

(** A page with a block whose second fragment has [plain_text: null]. *)
Definition odd_block : value :=
  VDict [("object", VStr "block");
         ("type", VStr "paragraph");
         ("paragraph",
          VDict [("rich_text",
                  VList [VDict [("type", VStr "text"); ("plain_text", VStr "a")];
                         VDict [("type", VStr "equation"); ("plain_text", VNone)]])])].

(** A service whose page ["p1"] has [odd_block] between two good blocks. *)
Definition odd_blocks : client :=
  fun _ c =>
    match c with
    | PagesRetrieve id => Returns (sample_page id "Minutes")
    | BlocksChildrenList _ =>
        Returns (VDict [("object", VStr "list");
                        ("results",
                         VList [sample_block "heading_1" ["Agenda"];
                                odd_block;
                                sample_block "paragraph" ["Budget"]])])
    | _ => Raises (APIResponseError "Could not find object")
    end.

(** A service whose search finds one page that has no [id]. *)
Definition anonymous_hit : client :=
  fun _ c =>
    match c with
    | Search _ =>
        Returns (VDict [("object", VStr "list");
                        ("results", VList [VDict [("object", VStr "page")]])])
    | _ => Returns (sample_page "p2" "Notes")
    end.



(** A database row whose title property, named ["Task"], has two fragments,
    next to a text property named ["title"]. *)
Definition split_clash_properties : list (string * value) :=
  [("Task", VDict split_title);
   ("title",
    VDict [("id", VStr "c%3Ad");
           ("type", VStr "rich_text");
           ("rich_text", VList [])])].

Definition split_clash_page : value :=
  VDict [("object", VStr "page");
         ("id", VStr "p5");
         ("last_edited_time", VStr "2024-05-01T10:00:00.000Z");
         ("properties", VDict split_clash_properties);
         ("url", VStr "https://www.notion.so/p5")].

Definition split_clash_workspace : client :=
  fun _ c =>
    match c with
    | Search _ =>
        Returns (VDict [("object", VStr "list"); ("results", VList [split_clash_page])])
    | PagesRetrieve _ => Returns split_clash_page
    | BlocksChildrenList _ =>
        Returns (VDict [("object", VStr "list"); ("results", VList [])])
    | _ => Raises (APIResponseError "Could not find object")
    end.

(** * Properties *)

(** ** Running programs *)

Lemma invoke_body (t : tool) : invoke t = try_except (body t).
Proof. destruct t; reflexivity. Qed.

Lemma run_lift_bind {A B} (r : res A) (f : A -> prog B) notion hist :
  run (bind (lift r) f) notion hist =
  match r with
  | Ok a => run (f a) notion hist
  | Err e => (Err e, [])
  end.
Proof. destruct r; reflexivity. Qed.

Lemma run_request_bind {B} (c : call) (f : value -> prog B) notion hist :
  run (bind (request c) f) notion hist =
  match notion hist c with
  | Returns v =>
      let (r, evs) := run (f v) notion (hist ++ [(c, Returns v)]) in
      (r, (c, Returns v) :: evs)
  | Raises e => (Err e, [(c, Raises e)])
  end.
Proof. reflexivity. Qed.

(** A call that raises ends the body with that exception. *)
Lemma run_raised {A} (p : prog A) :
  forall notion hist r evs c e,
    run p notion hist = (r, evs) ->
    In (c, Raises e) evs ->
    r = Err e.
Proof.
  induction p as [a | e0 | c0 k IH]; intros notion hist r evs c e Hrun Hin.
  - inversion Hrun; subst. destruct Hin.
  - inversion Hrun; subst. destruct Hin.
  - cbn in Hrun. destruct (notion hist c0) as [v | e1] eqn:Hc.
    + destruct (run (k v) notion (hist ++ [(c0, Returns v)])) as [r' evs'] eqn:Hk.
      inversion Hrun; subst. destruct Hin as [Heq | Hin].
      * discriminate Heq.
      * eapply IH; eauto.
    + inversion Hrun; subst. destruct Hin as [Heq | []].
      inversion Heq; subst. reflexivity.
Qed.

Lemma all_returns_bind {A B} (Q : B -> Prop) (p : prog A) (f : A -> prog B) :
  all_returns (fun a => all_returns Q (f a)) p ->
  all_returns Q (bind p f).
Proof.
  induction p as [a | e | c k IH]; cbn; intros H; auto.
Qed.

Lemma all_returns_lift {A} (P : A -> Prop) (r : res A) :
  (forall a, r = Ok a -> P a) -> all_returns P (lift r).
Proof. destruct r; cbn; auto. Qed.

Lemma run_all_returns {A} (P : A -> Prop) (p : prog A) :
  all_returns P p ->
  forall notion hist a evs, run p notion hist = (Ok a, evs) -> P a.
Proof.
  induction p as [a0 | e0 | c0 k IH]; cbn; intros HP notion hist a evs Hrun.
  - inversion Hrun; subst. exact HP.
  - discriminate.
  - destruct (notion hist c0) as [v | e1].
    + destruct (run (k v) notion (hist ++ [(c0, Returns v)])) as [r' evs'] eqn:Hk.
      inversion Hrun; subst. eapply IH; eauto.
    + discriminate.
Qed.

Lemma on_exception_enveloped (e : exn) : enveloped e (on_exception e).
Proof.
  destruct e; cbn; eexists; (split; [reflexivity |]); auto.
Qed.

Lemma on_exception_flag (e : exn) : has_success_flag (on_exception e).
Proof. destruct e; cbn; do 2 eexists; split; reflexivity. Qed.

(** What [try_except] hands back: the body's value, or the envelope of the
    exception that ended it. *)
Lemma try_except_cases (p : prog value) notion hist :
  (exists v, run p notion hist = (Ok v, snd (try_except p notion hist)) /\
             fst (try_except p notion hist) = v) \/
  (exists e, run p notion hist = (Err e, snd (try_except p notion hist)) /\
             fst (try_except p notion hist) = on_exception e).
Proof.
  unfold try_except. destruct (run p notion hist) as [[v | e] evs]; cbn; eauto.
Qed.

Lemma page_envelope_flag (response : value) (message : string) :
  all_returns has_success_flag (page_envelope response message).
Proof.
  unfold page_envelope.
  apply all_returns_bind, all_returns_lift; intros id _.
  apply all_returns_bind, all_returns_lift; intros url _.
  cbn. do 2 eexists; split; reflexivity.
Qed.

(** ** Failure envelopes *)

(** C4: in each of the six tools, when a client call raises the typed
    [APIResponseError] the tool returns [{"success": False, "error": ...}]
    whose error is ["Notion API error: "] followed by the exception's message,
    so it starts with ["Notion API error:"]; when the [try] block ends with
    any other exception, raised by the client or by a local operation, the
    error is the exception's message as it is.  The tool returns a value in
    every case: no exception leaves it. *)
Theorem tool_exception_envelope :
  forall (t : tool) (notion : client) (hist : list event) (e : exn),
    (exists c, In (c, Raises e) (snd (invoke t notion hist))) \/
    fst (run (body t) notion hist) = Err e ->
    enveloped e (fst (invoke t notion hist)).
Proof.
  intros t notion hist e H.
  assert (Hrun : fst (run (body t) notion hist) = Err e).
  { destruct H as [[c Hin] | H]; [| exact H].
    rewrite invoke_body in Hin. unfold try_except in Hin.
    destruct (run (body t) notion hist) as [r evs] eqn:Hr.
    assert (Hevs : In (c, Raises e) evs) by (destruct r; exact Hin).
    cbn. eapply run_raised; eauto. }
  rewrite invoke_body. unfold try_except.
  destruct (run (body t) notion hist) as [r evs]. cbn in Hrun. subst r. cbn.
  apply on_exception_enveloped.
Qed.

Lemma tool_exception_envelope_witness :
  enveloped (APIResponseError "Could not find page with ID: p1")
            (fst (invoke (GetPageContent "p1") not_found [])).
Proof.
  apply tool_exception_envelope.
  left. exists (PagesRetrieve "p1"). vm_compute. left. reflexivity.
Defined.

(** ** Remote calls of get_page_content *)

(** C9: [get_page_content] first retrieves the page; if that call raises it
    makes no other call, and otherwise it makes at most one more, the listing
    of the child blocks.  So the blocks are listed only after the metadata
    arrived, and an invocation makes at most two calls. *)
Theorem get_page_content_calls :
  forall (page_id : string) (notion : client) (hist : list event),
    let evs := snd (get_page_content page_id notion hist) in
    match notion hist (PagesRetrieve page_id) with
    | Raises e => evs = [(PagesRetrieve page_id, Raises e)]
    | Returns page =>
        evs = [(PagesRetrieve page_id, Returns page)] \/
        evs = [(PagesRetrieve page_id, Returns page);
               (BlocksChildrenList page_id,
                notion (hist ++ [(PagesRetrieve page_id, Returns page)])%list
                       (BlocksChildrenList page_id))]
    end /\
    (length evs <= 2)%nat.
Proof.
  intros page_id notion hist.
  unfold get_page_content, try_except, get_page_content_body.
  rewrite run_request_bind.
  destruct (notion hist (PagesRetrieve page_id)) as [page | e] eqn:Hpage.
  2: { cbn. split; [reflexivity | lia]. }
  rewrite run_lift_bind.
  destruct (get_page_content_title page) as [title | e].
  2: { cbn. split; [left; reflexivity | lia]. }
  rewrite run_request_bind.
  destruct (notion (hist ++ [(PagesRetrieve page_id, Returns page)])%list
                   (BlocksChildrenList page_id)) as [resp | e].
  2: { cbn. split; [right; reflexivity | lia]. }
  repeat (rewrite run_lift_bind;
          match goal with
          | |- context [match ?r with Ok _ => _ | Err _ => _ end] => destruct r
          end;
          [| cbn; split; [right; reflexivity | lia]]).
  cbn. split; [right; reflexivity | lia].
Qed.

(** ** update_page *)

(** C5: with neither [title] nor [archived], [update_page] returns
    [{"success": False, "error": "No update parameters provided"}] and calls
    nothing; with at least one of them it makes one [pages.update] call whose
    keyword arguments are [properties] exactly when a title is supplied,
    holding [{"title": {"title": [{"text": {"content": title}}]}}], and
    [archived] exactly when a flag is supplied, holding that flag, and no
    other. *)
Theorem update_page_parameters :
  forall (page_id : string) (title : option string) (archived : option bool)
         (notion : client) (hist : list event),
    match title, archived with
    | None, None =>
        exists msg,
          update_page page_id None None notion hist =
            (VDict [("success", VBool false); ("error", VStr msg)], []) /\
          contains "No update parameters" msg = true
    | _, _ =>
        exists data,
          snd (update_page page_id title archived notion hist) =
            [(PagesUpdate page_id data, notion hist (PagesUpdate page_id data))] /\
          map fst data =
            (match title with Some _ => ["properties"] | None => [] end ++
             match archived with Some _ => ["archived"] | None => [] end)%list /\
          data =
            (match title with
             | Some t =>
                 [("properties",
                   VDict [("title",
                           VDict [("title",
                                   VList [VDict [("text",
                                                  VDict [("content", VStr t)])]])])])]
             | None => []
             end ++
             match archived with
             | Some a => [("archived", VBool a)]
             | None => []
             end)%list
    end.
Proof.
  intros page_id title archived notion hist.
  destruct title as [t |], archived as [a |].
  4: { eexists. split; reflexivity. }
  all: match goal with
       | |- context [update_page _ ?ti ?ar] => exists (update_data ti ar)
       end;
    unfold update_page, try_except, update_page_body; cbn [update_data app];
    rewrite run_request_bind;
    destruct (notion hist (PagesUpdate page_id _)) as [resp | e];
    [| repeat split; reflexivity];
    unfold page_envelope;
    repeat (rewrite run_lift_bind;
            match goal with
            | |- context [match ?r with Ok _ => _ | Err _ => _ end] => destruct r
            end;
            [| repeat split; reflexivity]);
    repeat split; reflexivity.
Qed.

(** ** The success flag *)

(** Every tool returns a mapping with a boolean [success] field, except
    [create_page] when it is called without a parent and finds none. *)
Lemma create_page_body_returns (title content : string) (parent : option string) :
  all_returns (fun v => has_success_flag v \/ (given parent = None /\ v = no_parent_result))
              (create_page_body title content parent).
Proof.
  unfold create_page_body.
  assert (Henv : forall response message,
             all_returns (fun v => has_success_flag v \/
                                   (given parent = None /\ v = no_parent_result))
                         (page_envelope response message)).
  { intros response message. unfold page_envelope.
    apply all_returns_bind, all_returns_lift; intros id _.
    apply all_returns_bind, all_returns_lift; intros url _.
    cbn. left. do 2 eexists; split; reflexivity. }
  destruct (given parent) as [id |] eqn:Hgiven.
  - cbn. intros v. apply Henv.
  - cbn. intros v.
    apply all_returns_bind, all_returns_lift; intros found _.
    destruct (truthy found).
    + apply all_returns_bind, all_returns_lift; intros results _.
      apply all_returns_bind, all_returns_lift; intros first _.
      apply all_returns_bind, all_returns_lift; intros id _.
      cbn. intros response. apply Henv.
    + cbn. right. split; reflexivity.
Qed.

Lemma body_returns (t : tool) :
  all_returns
    (fun v => has_success_flag v \/
              exists title content parent,
                t = CreatePage title content parent /\ given parent = None /\
                v = no_parent_result)
    (body t).
Proof.
  destruct t as [title content parent | query page_size | page_id
                | page_id content | page_id title archived | database_id properties];
    cbn [body].
  - generalize (create_page_body_returns title content parent).
    generalize (create_page_body title content parent).
    induction p as [a | e | c k IH]; cbn; intros H.
    + destruct H as [H | [H1 H2]]; [left; exact H |].
      right. exists title, content, parent. auto.
    + exact I.
    + intros v. apply IH, H.
  - unfold search_pages_body. cbn. intros response.
    apply all_returns_bind, all_returns_lift; intros found _.
    apply all_returns_bind, all_returns_lift; intros pages _.
    apply all_returns_bind, all_returns_lift; intros results _.
    cbn. left. do 2 eexists; split; reflexivity.
  - unfold get_page_content_body. cbn. intros page.
    apply all_returns_bind, all_returns_lift; intros title _.
    cbn. intros blocks_response.
    apply all_returns_bind, all_returns_lift; intros found _.
    apply all_returns_bind, all_returns_lift; intros blocks _.
    apply all_returns_bind, all_returns_lift; intros content_blocks _.
    apply all_returns_bind, all_returns_lift; intros url _.
    apply all_returns_bind, all_returns_lift; intros last_edited _.
    cbn. left. do 2 eexists; split; reflexivity.
  - unfold append_to_page_body. cbn. intros _.
    left. do 2 eexists; split; reflexivity.
  - unfold update_page_body.
    destruct (update_data title archived) as [| kv data].
    + cbn. left. do 2 eexists; split; reflexivity.
    + cbn. intros response.
      generalize (page_envelope_flag response "Page updated successfully").
      generalize (page_envelope response "Page updated successfully").
      induction p as [a | e | c k IH]; cbn; intros H; auto.
  - unfold create_database_entry_body. cbn. intros response.
    generalize (page_envelope_flag response "Database entry created successfully").
    generalize (page_envelope response "Database entry created successfully").
    induction p as [a | e | c k IH]; cbn; intros H; auto.
Qed.

Lemma tool_result_shape (t : tool) (notion : client) (hist : list event) :
  has_success_flag (fst (invoke t notion hist)) \/
  exists title content parent,
    t = CreatePage title content parent /\ given parent = None /\
    fst (invoke t notion hist) = no_parent_result.
Proof.
  rewrite invoke_body.
  destruct (try_except_cases (body t) notion hist) as [[v [Hrun Hv]] | [e [Hrun He]]].
  - rewrite Hv. exact (run_all_returns _ _ (body_returns t) _ _ _ _ Hrun).
  - rewrite He. left. apply on_exception_flag.
Qed.

(** C1: [create_page], called without a parent in a workspace where the
    search finds no page, returns [{"error": ...}]: a mapping with no
    [success] field.  Every other return of the six tools does carry a boolean
    [success] field, and [get_recent_pages] returns a string by its type. *)
Theorem create_page_without_parent_has_no_success_field :
  fst (create_page "Notes" "hello" None empty_workspace []) = no_parent_result /\
  field (fst (create_page "Notes" "hello" None empty_workspace [])) "success" = None /\
  ~ has_success_flag (fst (create_page "Notes" "hello" None empty_workspace [])) /\
  (forall (t : tool) (notion : client) (hist : list event),
      has_success_flag (fst (invoke t notion hist)) \/
      fst (invoke t notion hist) = no_parent_result).
Proof.
  split; [reflexivity |]. split; [reflexivity |]. split.
  - intros [d [b [Hd Hs]]]. vm_compute in Hd. inversion Hd; subst d.
    vm_compute in Hs. discriminate.
  - intros t notion hist.
    destruct (tool_result_shape t notion hist) as [H | [? [? [? [_ [_ H]]]]]];
      [left; exact H | right; exact H].
Qed.

(** C2: when [create_page] is called without a parent and the fallback
    search returns a response whose [results] is empty (or missing), the only
    call made is that search, never the page creation, and the value
    returned is a mapping whose [error] message contains ["parent"]; but the
    mapping has no [success] field, where the claim asks for
    [success: False]. *)
Theorem create_page_no_parent_found :
  forall (title content : string) (notion : client) (hist : list event)
         (response found : value),
    notion hist (Search [("filter", page_filter); ("page_size", VInt 1)])
      = Returns response ->
    py_get response "results" VNone = Ok found ->
    truthy found = false ->
    exists msg evs,
      create_page title content None notion hist =
        (VDict [("error", VStr msg)], evs) /\
      contains "parent" msg = true /\
      evs = [(Search [("filter", page_filter); ("page_size", VInt 1)],
              Returns response)] /\
      filter is_pages_create evs = [] /\
      field (VDict [("error", VStr msg)]) "success" = None.
Proof.
  intros title content notion hist response found Hsearch Hfound Hempty.
  unfold create_page, try_except, create_page_body. cbn [given].
  rewrite run_request_bind, Hsearch, run_lift_bind, Hfound, Hempty.
  cbn. do 2 eexists. repeat split; reflexivity.
Qed.

Lemma create_page_no_parent_found_witness :
  exists msg evs,
    create_page "Notes" "hello" None empty_workspace [] =
      (VDict [("error", VStr msg)], evs) /\
    contains "parent" msg = true /\
    evs = [(Search [("filter", page_filter); ("page_size", VInt 1)],
            Returns (VDict [("object", VStr "list"); ("results", VList [])]))] /\
    filter is_pages_create evs = [] /\
    field (VDict [("error", VStr msg)]) "success" = None.
Proof.
  apply (create_page_no_parent_found "Notes" "hello" empty_workspace []
           (VDict [("object", VStr "list"); ("results", VList [])]) (VList []));
    reflexivity.
Defined.

(** ** search_pages *)

Lemma for_each_length {A B} (f : A -> res B) (l : list A) :
  forall bs, for_each f l = Ok bs -> length bs = length l.
Proof.
  induction l as [| a l IH]; cbn; intros bs H.
  - inversion H. reflexivity.
  - destruct (f a) as [b | e]; cbn in H; [| discriminate].
    destruct (for_each f l) as [bs' | e]; cbn in H; [| discriminate].
    inversion H. cbn. f_equal. apply IH. reflexivity.
Qed.

Lemma on_exception_not_success (e : exn) :
  field (on_exception e) "success" <> Some (VBool true).
Proof. destruct e; cbn; discriminate. Qed.

(** C6, as stated, fails: [search_pages] forwards [page_size] to the client
    and returns one entry per item of the response, so a response with six
    items gives six results for [page_size = 5]. *)
Lemma search_pages_exceeds_page_size :
  ~ (forall (notion : client) (hist : list event) (query : string)
            (page_size : Z) (results : list value),
        (0 < page_size)%Z ->
        field (fst (search_pages query page_size notion hist)) "results"
          = Some (VList results) ->
        (Z.of_nat (length results) <= page_size)%Z).
Proof.
  intros H.
  specialize (H six_pages [] "notes" 5%Z _ eq_refl eq_refl).
  vm_compute in H. apply H. reflexivity.
Qed.

(** C6, amended: a successful [search_pages] made exactly one search call,
    carrying [page_size] as given; [results] has one entry per item of that
    call's response, and [count] is the length of [results].  So [results]
    has at most [page_size] entries whenever the response has. *)
Theorem search_pages_count :
  forall (query : string) (page_size : Z) (notion : client) (hist : list event)
         (env : value) (evs : list event),
    search_pages query page_size notion hist = (env, evs) ->
    field env "success" = Some (VBool true) ->
    exists response found pages results,
      evs = [(Search [("query", VStr query);
                      ("filter", page_filter);
                      ("page_size", VInt page_size)], Returns response)] /\
      py_get response "results" (VList []) = Ok found /\
      py_iter found = Ok pages /\
      field env "results" = Some (VList results) /\
      field env "count" = Some (VInt (Z.of_nat (length results))) /\
      length results = length pages /\
      ((Z.of_nat (length pages) <= page_size)%Z ->
       (Z.of_nat (length results) <= page_size)%Z).
Proof.
  intros query page_size notion hist env evs Hrun Hok.
  unfold search_pages, try_except, search_pages_body in Hrun.
  rewrite run_request_bind in Hrun.
  destruct (notion hist _) as [response | e].
  2: { inversion Hrun; subst. destruct (on_exception_not_success _ Hok). }
  rewrite run_lift_bind in Hrun.
  destruct (py_get response "results" (VList [])) as [found | e] eqn:Hfound.
  2: { inversion Hrun; subst. destruct (on_exception_not_success _ Hok). }
  rewrite run_lift_bind in Hrun.
  destruct (py_iter found) as [pages | e] eqn:Hpages.
  2: { inversion Hrun; subst. destruct (on_exception_not_success _ Hok). }
  rewrite run_lift_bind in Hrun.
  destruct (for_each search_entry pages) as [results | e] eqn:Hresults.
  2: { inversion Hrun; subst. destruct (on_exception_not_success _ Hok). }
  cbn in Hrun. inversion Hrun; subst.
  exists response, found, pages, results.
  pose proof (for_each_length _ _ _ Hresults) as Hlen.
  repeat split; try reflexivity; try assumption. lia.
Qed.

Lemma search_pages_count_witness :
  exists response found pages results,
    snd (search_pages "notes" 5 six_pages []) =
      [(Search [("query", VStr "notes");
                ("filter", page_filter);
                ("page_size", VInt 5)], Returns response)] /\
    py_get response "results" (VList []) = Ok found /\
    py_iter found = Ok pages /\
    field (fst (search_pages "notes" 5 six_pages [])) "results" = Some (VList results) /\
    field (fst (search_pages "notes" 5 six_pages [])) "count"
      = Some (VInt (Z.of_nat (length results))) /\
    length results = length pages /\
    ((Z.of_nat (length pages) <= 5)%Z -> (Z.of_nat (length results) <= 5)%Z).
Proof.
  apply (search_pages_count "notes" 5 six_pages []
           (fst (search_pages "notes" 5 six_pages []))
           (snd (search_pages "notes" 5 six_pages []))).
  - reflexivity.
  - reflexivity.
Defined.

(** ** Block text *)

Lemma for_each_fragment_text (fragments : list value) (texts : list string) :
  Forall2 fragment_of fragments texts ->
  for_each fragment_text fragments = Ok (map VStr texts).
Proof.
  induction 1 as [| rt s fragments texts [d [Hrt Hs]] _ IH]; [reflexivity |].
  subst rt. cbn. rewrite IH.
  destruct (dict_get d "plain_text") as [v |]; subst; reflexivity.
Qed.

Lemma py_join_from_strings (texts : list string) :
  forall i, py_join_from i (map VStr texts) = Ok (concat_texts texts).
Proof.
  induction texts as [| s texts IH]; intros i; [reflexivity |].
  cbn. rewrite IH. reflexivity.
Qed.

(** The block loop keeps a block exactly when its fragments, put together,
    are not empty, and the entry holds that whole text. *)
Lemma block_entry_view (block : value) (ty : string) (texts : list string) :
  block_of block ty texts ->
  block_entry block =
  Ok (if nonempty (concat_texts texts)
      then Some (VDict [("type", VStr ty); ("text", VStr (concat_texts texts))])
      else None).
Proof.
  intros [d [c [Hb [Hty [Hc Hrt]]]]]. subst block.
  unfold block_entry. cbn. rewrite Hty. cbn. rewrite Hc. cbn.
  destruct (dict_get c "rich_text") as [rich_text |].
  - destruct Hrt as [fragments [Hrich Hfr]]. subst rich_text. cbn.
    rewrite (for_each_fragment_text _ _ Hfr). cbn.
    unfold py_join. rewrite py_join_from_strings. cbn.
    destruct (nonempty (concat_texts texts)); reflexivity.
  - subst texts. reflexivity.
Qed.

Lemma for_each_maybe_views (blocks : list value) (views : list (string * list string)) :
  Forall2 (fun b v => block_of b (fst v) (snd v)) blocks views ->
  for_each_maybe block_entry blocks = Ok (text_entries views).
Proof.
  induction 1 as [| b v blocks views Hb _ IH]; [reflexivity |].
  cbn. rewrite (block_entry_view _ _ _ Hb). cbn. rewrite IH. cbn.
  unfold text_entries. cbn.
  destruct (nonempty (concat_texts (snd v))); reflexivity.
Qed.

(** C7: when the page is retrieved, its title is extracted and it has a
    [url], and the listing of its children returns the blocks [blocks],
    [get_page_content] succeeds and its [content] has one [{type, text}]
    entry for each block whose fragments put together are not empty, in the
    order of the blocks, and none for the others. *)
Theorem get_page_content_blocks :
  forall (page_id : string) (notion : client) (hist : list event)
         (page title url response : value) (blocks : list value)
         (views : list (string * list string)),
    notion hist (PagesRetrieve page_id) = Returns page ->
    get_page_content_title page = Ok title ->
    py_item page "url" = Ok url ->
    notion (hist ++ [(PagesRetrieve page_id, Returns page)])%list
           (BlocksChildrenList page_id) = Returns response ->
    py_get response "results" (VList []) = Ok (VList blocks) ->
    Forall2 (fun b v => block_of b (fst v) (snd v)) blocks views ->
    exists last_edited,
      fst (get_page_content page_id notion hist) =
      VDict [("success", VBool true);
             ("page_id", VStr page_id);
             ("title", title);
             ("url", url);
             ("content", VList (text_entries views));
             ("last_edited", last_edited)].
Proof.
  intros page_id notion hist page title url response blocks views
         Hpage Htitle Hurl Hlist Hresults Hviews.
  unfold get_page_content, try_except, get_page_content_body.
  rewrite run_request_bind, Hpage, run_lift_bind, Htitle.
  rewrite run_request_bind, Hlist, run_lift_bind, Hresults.
  rewrite run_lift_bind. cbn [py_iter].
  rewrite run_lift_bind, (for_each_maybe_views _ _ Hviews).
  rewrite run_lift_bind, Hurl, run_lift_bind.
  destruct page as [| | | | | | entries]; try discriminate Hurl.
  cbn. eexists. reflexivity.
Qed.

Lemma get_page_content_blocks_witness :
  exists last_edited,
    fst (get_page_content "p1" three_blocks []) =
    VDict [("success", VBool true);
           ("page_id", VStr "p1");
           ("title", VStr "Minutes");
           ("url", VStr "https://www.notion.so/p1");
           ("content",
            VList [VDict [("type", VStr "heading_1"); ("text", VStr "Agenda")];
                   VDict [("type", VStr "paragraph"); ("text", VStr "Budget review")]]);
           ("last_edited", last_edited)].
Proof.
  apply (get_page_content_blocks "p1" three_blocks [] (sample_page "p1" "Minutes")
           (VStr "Minutes") (VStr "https://www.notion.so/p1")
           (VDict [("object", VStr "list");
                   ("results",
                    VList [sample_block "heading_1" ["Agenda"];
                           sample_block "paragraph" [];
                           sample_block "paragraph" ["Budget"; " review"]])])
           [sample_block "heading_1" ["Agenda"];
            sample_block "paragraph" [];
            sample_block "paragraph" ["Budget"; " review"]]
           [("heading_1", ["Agenda"]);
            ("paragraph", []);
            ("paragraph", ["Budget"; " review"])]);
    try reflexivity.
  repeat constructor.
  all: do 2 eexists; (split; [reflexivity |]); (split; [reflexivity |]);
    (split; [reflexivity |]); cbn; eexists; (split; [reflexivity |]);
    repeat constructor; eexists; (split; [reflexivity |]); reflexivity.
Defined.

(** ** Titles *)


(** The scan passes over a descriptor that holds no title. *)
Lemma find_title_skip (pre rest : list (string * value)) :
  Forall (fun kv => untitled (snd kv)) pre ->
  find_title (pre ++ rest) = find_title rest.
Proof.
  induction 1 as [| [name pv] pre [d [Hpv Hd]] _ IH]; [reflexivity |].
  cbn in Hpv. subst pv. cbn.
  destruct (dict_get d "type") as [ty |] eqn:Hty; cbn.
  - destruct (py_eq_str ty "title") eqn:Heq; [| exact IH].
    destruct ty; try discriminate Heq. cbn in Heq.
    apply String.eqb_eq in Heq. subst s.
    destruct Hd as [Hd | Hd]; [congruence |].
    unfold title_field in Hd. rewrite Hd. exact IH.
  - exact IH.
Qed.

(** The scan stops at a descriptor tagged ["title"] whose sequence is not
    empty, with the text of the first fragment. *)
Lemma find_title_hit (name : string) (d : list (string * value))
      (fragment : value) (others : list value) (post : list (string * value)) :
  dict_get d "type" = Some (VStr "title") ->
  dict_get d "title" = Some (VList (fragment :: others)) ->
  find_title ((name, VDict d) :: post) = py_item fragment "plain_text".
Proof.
  intros Hty Htitle. cbn. rewrite Hty. cbn.
  unfold first_plain_text. cbn. rewrite Htitle. cbn. reflexivity.
Qed.

Lemma scan_title (page : value) (props : list (string * value)) :
  properties_of page props ->
  get_page_content_title page = find_title props /\
  get_recent_pages_title page = find_title props.
Proof.
  intros [entries [Hpage [Hprops | [Hprops Hnil]]]]; subst;
    unfold get_page_content_title, get_recent_pages_title; cbn;
    rewrite Hprops; cbn; split; reflexivity.
Qed.

(** C3: on a page whose title property is named ["Name"] and which also has
    a text property named ["title"], [get_page_content] and
    [get_recent_pages] find the title by its tag, but [search_pages] reads the
    property named ["title"], finds no title sequence there and answers
    ["Untitled"] without scanning the other properties. *)
Theorem search_pages_overlooks_tagged_title :
  Forall (fun kv => typed (snd kv)) clash_properties /\
  get_page_content_title clash_page = Ok (VStr "Project plan") /\
  get_recent_pages_title clash_page = Ok (VStr "Project plan") /\
  search_pages_title clash_page = Ok (VStr "Untitled") /\
  field (fst (get_page_content "p7" clash_workspace [])) "title"
    = Some (VStr "Project plan") /\
  field (fst (search_pages "plan" 10 clash_workspace [])) "results"
    = Some (VList [VDict [("id", VStr "p7");
                          ("title", VStr "Untitled");
                          ("url", VStr "https://www.notion.so/p7");
                          ("last_edited", VStr "2024-05-01T10:00:00.000Z")]]).
Proof.
  split.
  - repeat constructor; intros d Hd Ht; inversion Hd; subst; cbn in *;
      [reflexivity | discriminate].
  - repeat split; reflexivity.
Qed.




(** C10: on a database row whose title property is named ["Task"] and has
    the two fragments ["Road"] and ["map"], and which also has a text property
    named ["title"], [get_page_content] and [get_recent_pages] return the
    first fragment, ["Road"], but [search_pages] returns ["Untitled"]: it
    reads the property named ["title"] and never scans for the tagged one. *)
Theorem search_pages_misses_split_title :
  Forall (fun kv => typed (snd kv)) split_clash_properties /\
  get_page_content_title split_clash_page = Ok (VStr "Road") /\
  get_recent_pages_title split_clash_page = Ok (VStr "Road") /\
  search_pages_title split_clash_page = Ok (VStr "Untitled") /\
  field (fst (get_page_content "p5" split_clash_workspace [])) "title"
    = Some (VStr "Road") /\
  field (fst (search_pages "road" 10 split_clash_workspace [])) "results"
    = Some (VList [VDict [("id", VStr "p5");
                          ("title", VStr "Untitled");
                          ("url", VStr "https://www.notion.so/p5");
                          ("last_edited", VStr "2024-05-01T10:00:00.000Z")]]).
Proof.
  split.
  - repeat constructor; intros d Hd Ht; inversion Hd; subst; cbn in *;
      [reflexivity | discriminate].
  - repeat split; reflexivity.
Qed.

(** X18: when the first property that holds a title has the fragments
    [fragment :: others], the title is the [plain_text] of [fragment] alone,
    whatever [others] is: in [get_page_content] and [get_recent_pages], and in
    [search_pages] when that property is the one named ["title"] or no
    property has that name.  A block's text, in contrast, is all of its
    fragments put together. *)
Theorem title_takes_first_fragment :
  forall (page : value) (props pre post : list (string * value)) (name : string)
         (d : list (string * value)) (fragment text : value) (others : list value),
    properties_of page props ->
    props = (pre ++ (name, VDict d) :: post)%list ->
    Forall (fun kv => untitled (snd kv)) pre ->
    dict_get d "type" = Some (VStr "title") ->
    dict_get d "title" = Some (VList (fragment :: others)) ->
    py_item fragment "plain_text" = Ok text ->
    get_page_content_title page = Ok text /\
    get_recent_pages_title page = Ok text /\
    (dict_get props "title" = None \/ dict_get props "title" = Some (VDict d) ->
     search_pages_title page = Ok text) /\
    (forall (block : value) (ty : string) (texts : list string),
        block_of block ty texts ->
        nonempty (concat_texts texts) = true ->
        block_entry block =
        Ok (Some (VDict [("type", VStr ty); ("text", VStr (concat_texts texts))]))).
Proof.
  intros page props pre post name d fragment text others
         Hpage Hprops Hpre Hty Htitle Htext.
  assert (Hscan : find_title props = Ok text).
  { rewrite Hprops, (find_title_skip _ _ Hpre).
    rewrite (find_title_hit _ _ _ _ _ Hty Htitle). exact Htext. }
  destruct (scan_title _ _ Hpage) as [H1 H2]. rewrite H1, H2, Hscan.
  split; [reflexivity |]. split; [reflexivity |]. split.
  - intros Hnamed.
    destruct Hpage as [entries [Hp [Hsome | [_ Hnil]]]]; subst page.
    2: { rewrite Hnil in Hprops. destruct pre; discriminate Hprops. }
    unfold search_pages_title. cbn. rewrite Hsome. cbn.
    destruct Hnamed as [Hnamed | Hnamed]; rewrite Hnamed; cbn.
    + rewrite ?Hsome. cbn. exact Hscan.
    + unfold first_plain_text. cbn. rewrite Htitle. cbn. exact Htext.
  - intros block ty texts Hblock Hne.
    rewrite (block_entry_view _ _ _ Hblock), Hne. reflexivity.
Qed.

Lemma title_takes_first_fragment_witness :
  get_page_content_title split_page = Ok (VStr "Road") /\
  get_recent_pages_title split_page = Ok (VStr "Road") /\
  search_pages_title split_page = Ok (VStr "Road") /\
  block_entry (sample_block "paragraph" ["Road"; "map"]) =
    Ok (Some (VDict [("type", VStr "paragraph"); ("text", VStr "Roadmap")])).
Proof.
  destruct (title_takes_first_fragment split_page
              [("Done", VDict [("id", VStr "y"); ("type", VStr "checkbox");
                               ("checkbox", VBool false)]);
               ("Task", VDict split_title)]
              [("Done", VDict [("id", VStr "y"); ("type", VStr "checkbox");
                               ("checkbox", VBool false)])]
              [] "Task" split_title
              (VDict [("type", VStr "text"); ("plain_text", VStr "Road")])
              (VStr "Road")
              [VDict [("type", VStr "text"); ("plain_text", VStr "map")]])
    as [H1 [H2 [H3 H4]]].
  - eexists. split; [reflexivity |]. left. reflexivity.
  - reflexivity.
  - constructor; [| constructor]. eexists. split; [reflexivity |].
    left. cbn. discriminate.
  - reflexivity.
  - reflexivity.
  - reflexivity.
  - split; [exact H1 |]. split; [exact H2 |]. split.
    + apply H3. left. reflexivity.
    + apply (H4 (sample_block "paragraph" ["Road"; "map"]) "paragraph" ["Road"; "map"]).
      * do 2 eexists. split; [reflexivity |]. split; [reflexivity |].
        split; [reflexivity |]. cbn. eexists. split; [reflexivity |].
        repeat constructor; eexists; (split; [reflexivity |]); reflexivity.
      * reflexivity.
Defined.

(** ** The recent-pages resource *)

Section ResourceProperties.

Variable py_str : value -> string.

(** [get_recent_pages] has a single [except] clause and returns text, not an
    envelope: an exception of either kind becomes an error line. *)
Lemma get_recent_pages_raised (notion : client) (hist : list event)
      (c : call) (e : exn) :
  In (c, Raises e) (snd (get_recent_pages py_str notion hist)) ->
  fst (get_recent_pages py_str notion hist) =
  "Error retrieving recent pages: " ++ str_exn e.
Proof.
  unfold get_recent_pages.
  match goal with
  | |- context [run ?p notion hist] =>
      destruct (run p notion hist) as [r evs] eqn:Hrun
  end.
  intros Hin.
  assert (Hevs : In (c, Raises e) evs) by (destruct r; exact Hin).
  rewrite (run_raised _ _ _ _ _ _ _ Hrun Hevs). reflexivity.
Qed.

End ResourceProperties.

(** * Further properties *)

(** ** Calls *)

Lemma snd_try_except (p : prog value) notion hist :
  snd (try_except p notion hist) = snd (run p notion hist).
Proof.
  unfold try_except. destruct (run p notion hist) as [[v | e] evs]; reflexivity.
Qed.

Lemma calls_bounded_lift_bind {A B} (n : nat) (r : res A) (f : A -> prog B) :
  (forall a, calls_bounded n (f a)) -> calls_bounded n (bind (lift r) f).
Proof. destruct r; cbn; auto. Qed.

Lemma run_calls_bounded {A} (p : prog A) :
  forall n notion hist,
    calls_bounded n p -> (length (snd (run p notion hist)) <= n)%nat.
Proof.
  induction p as [a | e | c k IH]; cbn; intros n notion hist H; try lia.
  destruct n as [| n]; [destruct H |].
  destruct (notion hist c) as [v | e].
  - specialize (IH v n notion (hist ++ [(c, Returns v)])%list (H v)).
    destruct (run (k v) notion (hist ++ [(c, Returns v)])%list) as [r evs].
    cbn in *. lia.
  - cbn. lia.
Qed.

Lemma makes_only_lift_bind {A B} (P : call -> bool) (r : res A) (f : A -> prog B) :
  (forall a, makes_only P (f a)) -> makes_only P (bind (lift r) f).
Proof. destruct r; cbn; auto. Qed.

Lemma run_makes_only {A} (P : call -> bool) (p : prog A) :
  forall notion hist,
    makes_only P p ->
    forallb (fun ev => P (fst ev)) (snd (run p notion hist)) = true.
Proof.
  induction p as [a | e | c k IH]; cbn; intros notion hist H; auto.
  destruct H as [Hc Hk].
  destruct (notion hist c) as [v | e].
  - specialize (IH v notion (hist ++ [(c, Returns v)])%list (Hk v)).
    destruct (run (k v) notion (hist ++ [(c, Returns v)])%list) as [r evs].
    cbn in *. rewrite Hc, IH. reflexivity.
  - cbn. rewrite Hc. reflexivity.
Qed.

Lemma page_envelope_calls (response : value) (message : string) :
  calls_bounded 0 (page_envelope response message).
Proof.
  unfold page_envelope.
  apply calls_bounded_lift_bind; intros id.
  apply calls_bounded_lift_bind; intros url. exact I.
Qed.

Lemma body_calls_bounded (t : tool) : calls_bounded (call_budget t) (body t).
Proof.
  destruct t as [title content parent | query page_size | page_id
                | page_id content | page_id title archived | database_id properties];
    cbn [body call_budget].
  - unfold create_page_body. destruct (given parent) as [id |].
    + cbn. intros response. apply page_envelope_calls.
    + cbn. intros search_results.
      apply calls_bounded_lift_bind; intros found.
      destruct (truthy found); [| exact I].
      apply calls_bounded_lift_bind; intros results.
      apply calls_bounded_lift_bind; intros first.
      apply calls_bounded_lift_bind; intros id.
      cbn. intros response. apply page_envelope_calls.
  - unfold search_pages_body. cbn. intros response.
    repeat (apply calls_bounded_lift_bind; intros ?). exact I.
  - unfold get_page_content_body. cbn. intros page.
    apply calls_bounded_lift_bind; intros title.
    cbn. intros blocks_response.
    repeat (apply calls_bounded_lift_bind; intros ?). exact I.
  - unfold append_to_page_body. cbn. intros _. exact I.
  - unfold update_page_body.
    destruct title as [t |], archived as [a |]; cbn; try exact I;
      intros response; apply page_envelope_calls.
  - unfold create_database_entry_body. cbn. intros response.
    apply page_envelope_calls.
Qed.

(** X1: one invocation of a tool makes at most two client calls: none for
    [update_page] without a field to update, two at most for
    [get_page_content] and for [create_page] without a usable parent, and one
    at most in every other case. *)
Theorem tool_call_budget :
  forall (t : tool) (notion : client) (hist : list event),
    (length (snd (invoke t notion hist)) <= call_budget t)%nat /\
    (call_budget t <= 2)%nat.
Proof.
  intros t notion hist. split.
  - rewrite invoke_body, snd_try_except.
    apply run_calls_bounded, body_calls_bounded.
  - destruct t as [? ? parent | | | | ? title archived |]; cbn; try lia.
    + destruct (given parent); lia.
    + destruct title, archived; lia.
Qed.

Lemma search_pages_body_reads (query : string) (page_size : Z) :
  makes_only is_read (search_pages_body query page_size).
Proof.
  unfold search_pages_body. cbn. split; [reflexivity |]. intros response.
  repeat (apply makes_only_lift_bind; intros ?). exact I.
Qed.

Lemma get_page_content_body_reads (page_id : string) :
  makes_only is_read (get_page_content_body page_id).
Proof.
  unfold get_page_content_body. cbn. split; [reflexivity |]. intros page.
  apply makes_only_lift_bind; intros title.
  cbn. split; [reflexivity |]. intros blocks_response.
  repeat (apply makes_only_lift_bind; intros ?). exact I.
Qed.

(** X2: [search_pages], [get_page_content] and [get_recent_pages] only
    read: whatever the service answers, the calls they make are searches,
    page retrievals and block listings, never a creation, an update or an
    append. *)
Theorem read_tools_never_write :
  forall (py_str : value -> string) (query page_id : string) (page_size : Z)
         (notion : client) (hist : list event),
    forallb (fun ev => is_read (fst ev))
            (snd (search_pages query page_size notion hist)) = true /\
    forallb (fun ev => is_read (fst ev))
            (snd (get_page_content page_id notion hist)) = true /\
    forallb (fun ev => is_read (fst ev))
            (snd (get_recent_pages py_str notion hist)) = true.
Proof.
  intros py_str query page_id page_size notion hist. split; [| split].
  - unfold search_pages. rewrite snd_try_except.
    apply run_makes_only, search_pages_body_reads.
  - unfold get_page_content. rewrite snd_try_except.
    apply run_makes_only, get_page_content_body_reads.
  - unfold get_recent_pages.
    match goal with
    | |- context [run ?p notion hist] =>
        assert (H : makes_only is_read p);
        [| pose proof (run_makes_only is_read p notion hist H) as Hrun;
           destruct (run p notion hist) as [[text | e] evs]; exact Hrun]
    end.
    cbn. split; [reflexivity |]. intros response.
    repeat (apply makes_only_lift_bind; intros ?). exact I.
Qed.

(** ** Envelopes *)

Lemma on_exception_well_formed (e : exn) : well_formed_envelope (on_exception e).
Proof.
  right. destruct e; cbn; (split; [reflexivity | eexists; reflexivity]).
Qed.

Lemma page_envelope_well_formed (response : value) (message : string) :
  all_returns well_formed_envelope (page_envelope response message).
Proof.
  unfold page_envelope.
  apply all_returns_bind, all_returns_lift; intros id _.
  apply all_returns_bind, all_returns_lift; intros url _.
  cbn. left. split; reflexivity.
Qed.

Lemma all_returns_weaken {A} (P Q : A -> Prop) (p : prog A) :
  (forall a, P a -> Q a) -> all_returns P p -> all_returns Q p.
Proof.
  intros HPQ. induction p as [a | e | c k IH]; cbn; intros H; auto.
Qed.

Lemma body_returns_envelope (t : tool) :
  all_returns (fun v => well_formed_envelope v \/ v = no_parent_result) (body t).
Proof.
  assert (Henv : forall response message,
             all_returns (fun v => well_formed_envelope v \/ v = no_parent_result)
                         (page_envelope response message)).
  { intros response message.
    apply (all_returns_weaken well_formed_envelope); [auto |].
    apply page_envelope_well_formed. }
  destruct t as [title content parent | query page_size | page_id
                | page_id content | page_id title archived | database_id properties];
    cbn [body].
  - unfold create_page_body. destruct (given parent) as [id |].
    + cbn. intros response. apply Henv.
    + cbn. intros search_results.
      apply all_returns_bind, all_returns_lift; intros found _.
      destruct (truthy found).
      * apply all_returns_bind, all_returns_lift; intros results _.
        apply all_returns_bind, all_returns_lift; intros first _.
        apply all_returns_bind, all_returns_lift; intros id _.
        cbn. intros response. apply Henv.
      * cbn. right. reflexivity.
  - unfold search_pages_body. cbn. intros response.
    apply all_returns_bind, all_returns_lift; intros found _.
    apply all_returns_bind, all_returns_lift; intros pages _.
    apply all_returns_bind, all_returns_lift; intros results _.
    cbn. left. left. split; reflexivity.
  - unfold get_page_content_body. cbn. intros page.
    apply all_returns_bind, all_returns_lift; intros title _.
    cbn. intros blocks_response.
    apply all_returns_bind, all_returns_lift; intros found _.
    apply all_returns_bind, all_returns_lift; intros blocks _.
    apply all_returns_bind, all_returns_lift; intros content_blocks _.
    apply all_returns_bind, all_returns_lift; intros url _.
    apply all_returns_bind, all_returns_lift; intros last_edited _.
    cbn. left. left. split; reflexivity.
  - unfold append_to_page_body. cbn. intros _. left. left. split; reflexivity.
  - unfold update_page_body.
    destruct (update_data title archived) as [| kv data].
    + cbn. left. right. split; [reflexivity | eexists; reflexivity].
    + cbn. intros response. apply Henv.
  - unfold create_database_entry_body. cbn. intros response. apply Henv.
Qed.

(** X3: what a tool returns is either a success envelope without an [error]
    field, or a failure envelope whose [error] is a string, or the
    [{"error": ...}] mapping of [create_page] that has no [success] field at
    all.  So [success: True] never comes with an [error], and
    [success: False] always comes with one. *)
Theorem tool_envelope_well_formed :
  forall (t : tool) (notion : client) (hist : list event),
    well_formed_envelope (fst (invoke t notion hist)) \/
    fst (invoke t notion hist) = no_parent_result.
Proof.
  intros t notion hist. rewrite invoke_body.
  destruct (try_except_cases (body t) notion hist) as [[v [Hrun Hv]] | [e [Hrun He]]].
  - rewrite Hv. exact (run_all_returns _ _ (body_returns_envelope t) _ _ _ _ Hrun).
  - rewrite He. left. apply on_exception_well_formed.
Qed.

(** ** Writes *)

Lemma run_page_envelope (response : value) (message : string) notion hist :
  run (page_envelope response message) notion hist =
  (id <~ py_item response "id" ;;
   url <~ py_item response "url" ;;
   Ok (VDict [("success", VBool true);
              ("page_id", id);
              ("url", url);
              ("message", VStr message)]), []).
Proof.
  unfold page_envelope. rewrite run_lift_bind.
  destruct (py_item response "id") as [id | e]; [| reflexivity].
  rewrite run_lift_bind.
  destruct (py_item response "url") as [url | e]; reflexivity.
Qed.

(** X4: with a parent that is not empty, [create_page] makes one call, the
    creation of a page under that parent with the title property
    [{"title": {"title": [{"text": {"content": title}}]}}] and one paragraph
    block whose text is the content, and no search; when the response has an
    [id] and a [url], they are returned with [success: True] and a message
    that quotes the title. *)
Theorem create_page_under_parent :
  forall (title content parent : string) (notion : client) (hist : list event)
         (response id url : value),
    nonempty parent = true ->
    notion hist
      (PagesCreate
         [("parent", VDict [("page_id", VStr parent)]);
          ("properties",
           VDict [("title",
                   VDict [("title",
                           VList [VDict [("text", VDict [("content", VStr title)])]])])]);
          ("children",
           VList [VDict [("object", VStr "block");
                         ("type", VStr "paragraph");
                         ("paragraph",
                          VDict [("rich_text",
                                  VList [VDict [("type", VStr "text");
                                                ("text",
                                                 VDict [("content", VStr content)])]])])]])])
      = Returns response ->
    py_item response "id" = Ok id ->
    py_item response "url" = Ok url ->
    create_page title content (Some parent) notion hist =
    (VDict [("success", VBool true);
            ("page_id", id);
            ("url", url);
            ("message", VStr ("Page '" ++ title ++ "' created successfully"))],
     [(PagesCreate
         [("parent", VDict [("page_id", VStr parent)]);
          ("properties",
           VDict [("title",
                   VDict [("title",
                           VList [VDict [("text", VDict [("content", VStr title)])]])])]);
          ("children",
           VList [VDict [("object", VStr "block");
                         ("type", VStr "paragraph");
                         ("paragraph",
                          VDict [("rich_text",
                                  VList [VDict [("type", VStr "text");
                                                ("text",
                                                 VDict [("content", VStr content)])]])])]])],
       Returns response)]).
Proof.
  intros title content parent notion hist response id url Hparent Hcall Hid Hurl.
  unfold create_page, try_except, create_page_body, title_properties, paragraph_block.
  cbn [given]. rewrite Hparent.
  rewrite run_request_bind, Hcall, run_page_envelope, Hid. cbn. rewrite Hurl.
  reflexivity.
Qed.

Lemma create_page_under_parent_witness :
  create_page "Notes" "hello" (Some "p1") creating [] =
  (VDict [("success", VBool true);
          ("page_id", VStr "p2");
          ("url", VStr "https://www.notion.so/p2");
          ("message", VStr "Page 'Notes' created successfully")],
   [(PagesCreate
       [("parent", VDict [("page_id", VStr "p1")]);
        ("properties",
         VDict [("title",
                 VDict [("title",
                         VList [VDict [("text", VDict [("content", VStr "Notes")])]])])]);
        ("children",
         VList [VDict [("object", VStr "block");
                       ("type", VStr "paragraph");
                       ("paragraph",
                        VDict [("rich_text",
                                VList [VDict [("type", VStr "text");
                                              ("text",
                                               VDict [("content", VStr "hello")])]])])]])],
     Returns (sample_page "p2" "Notes"))]).
Proof.
  apply (create_page_under_parent "Notes" "hello" "p1" creating []
           (sample_page "p2" "Notes")); reflexivity.
Defined.

(** X5: without a parent, or with the empty string as parent, [create_page]
    searches for one page and, when the search finds any, creates the new page
    under the first hit: the calls are the search, then the creation with
    that hit's [id] as parent. *)
Theorem create_page_adopts_first_hit :
  forall (title content : string) (parent : option string)
         (notion : client) (hist : list event)
         (search_results first adopted response id url : value)
         (others : list value),
    parent = None \/ parent = Some "" ->
    notion hist (Search [("filter", page_filter); ("page_size", VInt 1)])
      = Returns search_results ->
    py_item search_results "results" = Ok (VList (first :: others)) ->
    py_item first "id" = Ok adopted ->
    notion (hist ++ [(Search [("filter", page_filter); ("page_size", VInt 1)],
                      Returns search_results)])%list
           (PagesCreate [("parent", VDict [("page_id", adopted)]);
                         ("properties", title_properties title);
                         ("children", VList [paragraph_block content])])
      = Returns response ->
    py_item response "id" = Ok id ->
    py_item response "url" = Ok url ->
    create_page title content parent notion hist =
    (VDict [("success", VBool true);
            ("page_id", id);
            ("url", url);
            ("message", VStr ("Page '" ++ title ++ "' created successfully"))],
     [(Search [("filter", page_filter); ("page_size", VInt 1)],
       Returns search_results);
      (PagesCreate [("parent", VDict [("page_id", adopted)]);
                    ("properties", title_properties title);
                    ("children", VList [paragraph_block content])],
       Returns response)]).
Proof.
  intros title content parent notion hist search_results first adopted response
         id url others Hparent Hsearch Hresults Hadopted Hcreate Hid Hurl.
  assert (Hgiven : given parent = None) by (destruct Hparent; subst; reflexivity).
  unfold create_page, try_except, create_page_body. rewrite Hgiven.
  rewrite run_request_bind, Hsearch, run_lift_bind.
  assert (Hget : py_get search_results "results" VNone = Ok (VList (first :: others))).
  { destruct search_results; try discriminate Hresults. cbn in *.
    destruct (dict_get entries "results"); [congruence | discriminate]. }
  rewrite Hget. cbn [truthy].
  rewrite run_lift_bind, Hresults, run_lift_bind. cbn [py_first].
  rewrite run_lift_bind, Hadopted.
  rewrite run_request_bind, Hcreate, run_page_envelope, Hid. cbn. rewrite Hurl.
  reflexivity.
Qed.

Lemma create_page_adopts_first_hit_witness :
  create_page "Notes" "hello" (Some "") creating [] =
  (VDict [("success", VBool true);
          ("page_id", VStr "p2");
          ("url", VStr "https://www.notion.so/p2");
          ("message", VStr "Page 'Notes' created successfully")],
   [(Search [("filter", page_filter); ("page_size", VInt 1)],
     Returns (VDict [("object", VStr "list");
                     ("results", VList [sample_page "p1" "Home"])]));
    (PagesCreate [("parent", VDict [("page_id", VStr "p1")]);
                  ("properties", title_properties "Notes");
                  ("children", VList [paragraph_block "hello"])],
     Returns (sample_page "p2" "Notes"))]).
Proof.
  apply (create_page_adopts_first_hit "Notes" "hello" (Some "") creating []
           (VDict [("object", VStr "list");
                   ("results", VList [sample_page "p1" "Home"])])
           (sample_page "p1" "Home") (VStr "p1") (sample_page "p2" "Notes")
           (VStr "p2") (VStr "https://www.notion.so/p2") []);
    try reflexivity.
  right. reflexivity.
Defined.

(** X6: [append_to_page] makes exactly one call, appending to the page one
    paragraph block
    [{"object": "block", "type": "paragraph", "paragraph": {"rich_text":
    [{"type": "text", "text": {"content": content}}]}}], and never looks at
    the response: any response gives the success envelope, and an exception
    gives the failure envelope. *)
Theorem append_to_page_outcome :
  forall (page_id content : string) (notion : client) (hist : list event),
    let appended :=
      BlocksChildrenAppend page_id
        (VList [VDict [("object", VStr "block");
                       ("type", VStr "paragraph");
                       ("paragraph",
                        VDict [("rich_text",
                                VList [VDict [("type", VStr "text");
                                              ("text",
                                               VDict [("content", VStr content)])]])])]]) in
    append_to_page page_id content notion hist =
    (match notion hist appended with
     | Returns _ =>
         VDict [("success", VBool true);
                ("message", VStr ("Content appended to page " ++ page_id))]
     | Raises (APIResponseError m) =>
         VDict [("success", VBool false);
                ("error", VStr ("Notion API error: " ++ m))]
     | Raises e =>
         VDict [("success", VBool false); ("error", VStr (str_exn e))]
     end,
     [(appended, notion hist appended)]).
Proof.
  intros page_id content notion hist appended. subst appended.
  unfold append_to_page, try_except, append_to_page_body, paragraph_block.
  rewrite run_request_bind.
  destruct (notion hist _) as [response | e]; [reflexivity |].
  destruct e; reflexivity.
Qed.

(** X7: [create_database_entry] hands [properties] to the service as it
    received them, whatever they are: it makes exactly one call, the creation
    of a page whose parent is the database and whose properties are the
    argument, unchanged and unchecked. *)
Theorem create_database_entry_passes_properties :
  forall (database_id : string) (properties : value)
         (notion : client) (hist : list event),
    snd (create_database_entry database_id properties notion hist) =
    [(PagesCreate [("parent", VDict [("database_id", VStr database_id)]);
                   ("properties", properties)],
      notion hist (PagesCreate [("parent", VDict [("database_id", VStr database_id)]);
                                ("properties", properties)]))].
Proof.
  intros database_id properties notion hist.
  unfold create_database_entry, try_except, create_database_entry_body.
  rewrite run_request_bind.
  destruct (notion hist _) as [response | e]; [| reflexivity].
  rewrite run_page_envelope.
  destruct (py_item response "id") as [id | e]; [| reflexivity]. cbn.
  destruct (py_item response "url") as [url | e]; reflexivity.
Qed.

(** X8: when the service performs a write and answers with a mapping that
    has no [id], the tool reports a failure although the write was made:
    [create_database_entry], [create_page] under a parent and [update_page]
    return [success: False] with the error ['id'] after a call that
    returned. *)
Theorem write_reported_as_failure :
  forall (notion : client) (hist : list event) (d : list (string * value))
         (title content parent page_id database_id : string) (properties : value)
         (archived : bool),
    (forall h c, notion h c = Returns (VDict d)) ->
    dict_get d "id" = None ->
    nonempty parent = true ->
    create_database_entry database_id properties notion hist =
      (VDict [("success", VBool false); ("error", VStr "'id'")],
       [(PagesCreate [("parent", VDict [("database_id", VStr database_id)]);
                      ("properties", properties)], Returns (VDict d))]) /\
    create_page title content (Some parent) notion hist =
      (VDict [("success", VBool false); ("error", VStr "'id'")],
       [(PagesCreate [("parent", VDict [("page_id", VStr parent)]);
                      ("properties", title_properties title);
                      ("children", VList [paragraph_block content])],
         Returns (VDict d))]) /\
    update_page page_id None (Some archived) notion hist =
      (VDict [("success", VBool false); ("error", VStr "'id'")],
       [(PagesUpdate page_id [("archived", VBool archived)], Returns (VDict d))]).
Proof.
  intros notion hist d title content parent page_id database_id properties archived
         Hnotion Hid Hparent.
  split; [| split].
  - unfold create_database_entry, try_except, create_database_entry_body.
    rewrite run_request_bind, Hnotion, run_page_envelope. cbn. rewrite Hid.
    reflexivity.
  - unfold create_page, try_except, create_page_body. cbn [given]. rewrite Hparent.
    rewrite run_request_bind, Hnotion, run_page_envelope. cbn. rewrite Hid.
    reflexivity.
  - unfold update_page, try_except, update_page_body. cbn [update_data app].
    rewrite run_request_bind, Hnotion, run_page_envelope. cbn. rewrite Hid.
    reflexivity.
Qed.

Lemma write_reported_as_failure_witness :
  create_database_entry "db1" (VDict []) terse [] =
    (VDict [("success", VBool false); ("error", VStr "'id'")],
     [(PagesCreate [("parent", VDict [("database_id", VStr "db1")]);
                    ("properties", VDict [])],
       Returns (VDict [("object", VStr "page")]))]) /\
  create_page "Notes" "hello" (Some "p1") terse [] =
    (VDict [("success", VBool false); ("error", VStr "'id'")],
     [(PagesCreate [("parent", VDict [("page_id", VStr "p1")]);
                    ("properties", title_properties "Notes");
                    ("children", VList [paragraph_block "hello"])],
       Returns (VDict [("object", VStr "page")]))]) /\
  update_page "p1" None (Some true) terse [] =
    (VDict [("success", VBool false); ("error", VStr "'id'")],
     [(PagesUpdate "p1" [("archived", VBool true)],
       Returns (VDict [("object", VStr "page")]))]).
Proof.
  apply (write_reported_as_failure terse [] [("object", VStr "page")]
           "Notes" "hello" "p1" "p1" "db1" (VDict []) true).
  - intros h c. reflexivity.
  - reflexivity.
  - reflexivity.
Defined.

(** ** Search results *)

Lemma for_each_first_error {A B} (f : A -> res B) (pre post : list A) (a : A) (e : exn) :
  Forall (fun x => exists b, f x = Ok b) pre ->
  f a = Err e ->
  for_each f (pre ++ a :: post) = Err e.
Proof.
  induction 1 as [| x pre [b Hb] _ IH]; intros Ha; cbn.
  - rewrite Ha. reflexivity.
  - rewrite Hb. cbn. rewrite (IH Ha). reflexivity.
Qed.

Lemma for_each_Forall2 {A B} (f : A -> res B) (l : list A) :
  forall bs, for_each f l = Ok bs -> Forall2 (fun a b => f a = Ok b) l bs.
Proof.
  induction l as [| a l IH]; cbn; intros bs H.
  - inversion H. constructor.
  - destruct (f a) as [b | e] eqn:Ha; cbn in H; [| discriminate].
    destruct (for_each f l) as [bs' | e]; cbn in H; [| discriminate].
    inversion H; subst. constructor; [exact Ha | apply IH; reflexivity].
Qed.

(** X9: [search_pages] returns all hits or none: when one hit of the
    response cannot be turned into an entry (it lacks its [id] or [url], or
    its title cannot be read), the whole search fails with that hit's error,
    and the entries of the hits before it are dropped. *)
Theorem search_pages_all_or_nothing :
  forall (query : string) (page_size : Z) (notion : client) (hist : list event)
         (response bad : value) (before after : list value) (e : exn),
    notion hist (Search [("query", VStr query);
                         ("filter", page_filter);
                         ("page_size", VInt page_size)]) = Returns response ->
    py_get response "results" (VList []) = Ok (VList (before ++ bad :: after)) ->
    Forall (fun page => exists entry, search_entry page = Ok entry) before ->
    search_entry bad = Err e ->
    enveloped e (fst (search_pages query page_size notion hist)) /\
    field (fst (search_pages query page_size notion hist)) "results" = None.
Proof.
  intros query page_size notion hist response bad before after e
         Hcall Hresults Hbefore Hbad.
  unfold search_pages, try_except, search_pages_body.
  rewrite run_request_bind, Hcall, run_lift_bind, Hresults, run_lift_bind.
  cbn [py_iter]. rewrite run_lift_bind.
  rewrite (for_each_first_error _ _ _ _ _ Hbefore Hbad). cbn.
  split; [apply on_exception_enveloped | destruct e; reflexivity].
Qed.

Lemma search_pages_all_or_nothing_witness :
  enveloped (KeyError "'url'") (fst (search_pages "notes" 10 one_broken [])) /\
  field (fst (search_pages "notes" 10 one_broken [])) "results" = None.
Proof.
  apply (search_pages_all_or_nothing "notes" 10 one_broken []
           (VDict [("object", VStr "list");
                   ("results", VList [sample_page "p1" "One";
                                      broken_page;
                                      sample_page "p2" "Two"])])
           broken_page [sample_page "p1" "One"] [sample_page "p2" "Two"]).
  - reflexivity.
  - reflexivity.
  - constructor; [| constructor]. eexists. reflexivity.
  - reflexivity.
Defined.

Lemma search_entry_reports (page entry : value) :
  search_entry page = Ok entry -> reports page entry.
Proof.
  unfold search_entry. intros H.
  destruct (search_pages_title page) as [title | e] eqn:Htitle; [| discriminate].
  cbn in H.
  destruct page as [| | | | | | d]; try discriminate H.
  cbn in H.
  destruct (dict_get d "id") as [id |] eqn:Hid; [| discriminate]. cbn in H.
  destruct (dict_get d "url") as [url |] eqn:Hurl; [| discriminate]. cbn in H.
  inversion H; subst. exists d, title. cbn. rewrite Hid, Hurl.
  repeat split; try reflexivity. exact Htitle.
Qed.

(** X10: in a successful [search_pages], [results] lists the hits of the
    response in their order, and the entry of a hit holds that hit's [id] and
    [url], the title read from it, and its [last_edited_time], or the string
    ["Unknown"] when the hit has none. *)
Theorem search_pages_entries :
  forall (query : string) (page_size : Z) (notion : client) (hist : list event)
         (env : value) (evs : list event),
    search_pages query page_size notion hist = (env, evs) ->
    field env "success" = Some (VBool true) ->
    exists response found pages results,
      notion hist (Search [("query", VStr query);
                           ("filter", page_filter);
                           ("page_size", VInt page_size)]) = Returns response /\
      py_get response "results" (VList []) = Ok found /\
      py_iter found = Ok pages /\
      field env "results" = Some (VList results) /\
      Forall2 reports pages results.
Proof.
  intros query page_size notion hist env evs Hrun Hok.
  unfold search_pages, try_except, search_pages_body in Hrun.
  rewrite run_request_bind in Hrun.
  destruct (notion hist _) as [response | e] eqn:Hcall.
  2: { inversion Hrun; subst. destruct (on_exception_not_success _ Hok). }
  rewrite run_lift_bind in Hrun.
  destruct (py_get response "results" (VList [])) as [found | e] eqn:Hfound.
  2: { inversion Hrun; subst. destruct (on_exception_not_success _ Hok). }
  rewrite run_lift_bind in Hrun.
  destruct (py_iter found) as [pages | e] eqn:Hpages.
  2: { inversion Hrun; subst. destruct (on_exception_not_success _ Hok). }
  rewrite run_lift_bind in Hrun.
  destruct (for_each search_entry pages) as [results | e] eqn:Hresults.
  2: { inversion Hrun; subst. destruct (on_exception_not_success _ Hok). }
  cbn in Hrun. inversion Hrun; subst.
  exists response, found, pages, results.
  repeat split; try reflexivity; try assumption.
  apply for_each_Forall2 in Hresults.
  eapply Forall2_impl; [| exact Hresults].
  intros page entry Hentry. apply search_entry_reports, Hentry.
Qed.

Lemma search_pages_entries_witness :
  exists response found pages results,
    six_pages [] (Search [("query", VStr "notes");
                          ("filter", page_filter);
                          ("page_size", VInt 5)]) = Returns response /\
    py_get response "results" (VList []) = Ok found /\
    py_iter found = Ok pages /\
    field (fst (search_pages "notes" 5 six_pages [])) "results"
      = Some (VList results) /\
    Forall2 reports pages results.
Proof.
  apply (search_pages_entries "notes" 5 six_pages []
           (fst (search_pages "notes" 5 six_pages []))
           (snd (search_pages "notes" 5 six_pages []))).
  - reflexivity.
  - reflexivity.
Defined.

(** X11: a search response without a [results] field is an empty listing,
    not an error: [search_pages] returns [success: True] with [count] 0 and no
    result, and [get_recent_pages] returns the heading alone. *)
Theorem missing_results_is_empty :
  forall (py_str : value -> string) (query : string) (page_size : Z)
         (notion : client) (hist : list event) (d : list (string * value)),
    (forall kwargs, notion hist (Search kwargs) = Returns (VDict d)) ->
    dict_get d "results" = None ->
    fst (search_pages query page_size notion hist) =
      VDict [("success", VBool true); ("count", VInt 0); ("results", VList [])] /\
    fst (get_recent_pages py_str notion hist) = "# Recently Edited Pages" ++ nl.
Proof.
  intros py_str query page_size notion hist d Hnotion Hresults. split.
  - unfold search_pages, try_except, search_pages_body.
    rewrite run_request_bind, Hnotion, run_lift_bind. cbn [py_get].
    rewrite Hresults. reflexivity.
  - unfold get_recent_pages. cbv zeta.
    rewrite run_request_bind, Hnotion, run_lift_bind. cbn [py_get].
    rewrite Hresults. reflexivity.
Qed.

Lemma missing_results_is_empty_witness :
  fst (search_pages "notes" 10 bare []) =
    VDict [("success", VBool true); ("count", VInt 0); ("results", VList [])] /\
  fst (get_recent_pages show bare []) = "# Recently Edited Pages" ++ nl.
Proof.
  apply (missing_results_is_empty show "notes" 10 bare [] [("object", VStr "list")]).
  - intros kwargs. reflexivity.
  - reflexivity.
Defined.

(** ** The listing of recent pages *)

(** X12: [get_recent_pages] makes exactly one call, whatever comes of it: a
    search with the filter [{"property": "object", "value": "page"}], sorted
    by time of last edit, latest first, with [page_size] 20. *)
Theorem get_recent_pages_call :
  forall (py_str : value -> string) (notion : client) (hist : list event),
    let searched :=
      Search [("filter", VDict [("property", VStr "object"); ("value", VStr "page")]);
              ("sort", VDict [("direction", VStr "descending");
                              ("timestamp", VStr "last_edited_time")]);
              ("page_size", VInt 20)] in
    snd (get_recent_pages py_str notion hist) = [(searched, notion hist searched)].
Proof.
  intros py_str notion hist searched. subst searched.
  unfold get_recent_pages, page_filter. cbv zeta.
  rewrite run_request_bind.
  destruct (notion hist _) as [response | e]; [| reflexivity].
  repeat (rewrite run_lift_bind;
          match goal with
          | |- context [match ?r with Ok _ => _ | Err _ => _ end] => destruct r
          end;
          [| reflexivity]).
  reflexivity.
Qed.

Lemma for_each_recent_entry (py_str : value -> string) :
  (forall s, py_str (VStr s) = s) ->
  forall pages rows,
    Forall2 printed_as pages rows ->
    for_each (recent_entry py_str) pages = Ok (map lines_of rows).
Proof.
  intros Hstr. induction 1 as [| page row pages rows Hrow _ IH]; [reflexivity |].
  destruct row as [[[title id] url] last_edited].
  destruct Hrow as [d [Hpage [Htitle [Hid [Hurl Hlast]]]]]. subst page.
  cbn [for_each]. unfold recent_entry at 1. rewrite Htitle. cbn.
  rewrite Hid, Hurl. cbn. rewrite IH. cbn. rewrite !Hstr.
  destruct (dict_get d "last_edited_time") as [v |]; subst; rewrite Hstr; reflexivity.
Qed.

(** X13: when the search returns pages whose [id], [url] and title are
    strings, [get_recent_pages] returns the heading followed, for each page in
    the order of the response, by four lines: the title in bold, the [id] in
    backquotes, the [url], and the time of last edit, which reads ["Unknown"]
    for a page that has none; the lines are joined by newlines, with an empty
    line after the heading and after each page. *)
Theorem get_recent_pages_listing :
  forall (py_str : value -> string) (notion : client) (hist : list event)
         (response : value) (pages : list value)
         (rows : list (string * string * string * string)),
    (forall s, py_str (VStr s) = s) ->
    notion hist (Search [("filter", page_filter);
                         ("sort", VDict [("direction", VStr "descending");
                                         ("timestamp", VStr "last_edited_time")]);
                         ("page_size", VInt 20)]) = Returns response ->
    py_get response "results" (VList []) = Ok (VList pages) ->
    Forall2 printed_as pages rows ->
    fst (get_recent_pages py_str notion hist) =
    join nl (("# Recently Edited Pages" ++ nl) :: concat (map lines_of rows)).
Proof.
  intros py_str notion hist response pages rows Hstr Hcall Hresults Hrows.
  unfold get_recent_pages. cbv zeta.
  rewrite run_request_bind, Hcall, run_lift_bind, Hresults, run_lift_bind.
  cbn [py_iter]. rewrite run_lift_bind.
  rewrite (for_each_recent_entry py_str Hstr _ _ Hrows). reflexivity.
Qed.

Lemma get_recent_pages_listing_witness :
  fst (get_recent_pages show creating []) =
  join nl ["# Recently Edited Pages" ++ nl;
           "- **Home**";
           "  - ID: `p1`";
           "  - URL: https://www.notion.so/p1";
           "  - Last edited: 2024-05-01T10:00:00.000Z" ++ nl].
Proof.
  apply (get_recent_pages_listing show creating []
           (VDict [("object", VStr "list");
                   ("results", VList [sample_page "p1" "Home"])])
           [sample_page "p1" "Home"]
           [("Home", "p1", "https://www.notion.so/p1", "2024-05-01T10:00:00.000Z")]).
  - intros s. reflexivity.
  - reflexivity.
  - reflexivity.
  - constructor; [| constructor]. eexists. repeat split; reflexivity.
Defined.

(** ** Content blocks *)

Lemma block_entry_has_text (block entry : value) :
  block_entry block = Ok (Some entry) -> has_text entry.
Proof.
  unfold block_entry. intros H.
  repeat match type of H with
         | context [res_bind ?r _] =>
             destruct r eqn:?; cbn [res_bind] in H; try discriminate H
         | context [if ?b then _ else _] =>
             destruct b eqn:?; try discriminate H
         end.
  inversion H; subst. do 2 eexists. split; [reflexivity | assumption].
Qed.

Lemma for_each_maybe_Forall {A B} (P : B -> Prop) (f : A -> res (option B)) :
  (forall a b, f a = Ok (Some b) -> P b) ->
  forall l bs, for_each_maybe f l = Ok bs -> Forall P bs.
Proof.
  intros Hf. induction l as [| a l IH]; cbn; intros bs H.
  - inversion H. constructor.
  - destruct (f a) as [ob | e] eqn:Ha; cbn in H; [| discriminate].
    destruct (for_each_maybe f l) as [bs' | e]; cbn in H; [| discriminate].
    inversion H; subst. destruct ob as [b |]; [constructor |]; eauto.
Qed.

(** X14: in a successful [get_page_content], every entry of [content] is a
    [{type, text}] mapping whose [text] is a string that is not empty,
    whatever the service sent as blocks. *)
Theorem get_page_content_texts_nonempty :
  forall (page_id : string) (notion : client) (hist : list event)
         (env : value) (evs : list event),
    get_page_content page_id notion hist = (env, evs) ->
    field env "success" = Some (VBool true) ->
    exists content,
      field env "content" = Some (VList content) /\ Forall has_text content.
Proof.
  intros page_id notion hist env evs Hrun Hok.
  unfold get_page_content, try_except, get_page_content_body in Hrun.
  rewrite run_request_bind in Hrun.
  destruct (notion hist _) as [page | e].
  2: { inversion Hrun; subst. destruct (on_exception_not_success _ Hok). }
  rewrite run_lift_bind in Hrun.
  destruct (get_page_content_title page) as [title | e].
  2: { inversion Hrun; subst. destruct (on_exception_not_success _ Hok). }
  rewrite run_request_bind in Hrun.
  destruct (notion _ _) as [blocks_response | e].
  2: { inversion Hrun; subst. destruct (on_exception_not_success _ Hok). }
  rewrite run_lift_bind in Hrun.
  destruct (py_get blocks_response "results" (VList [])) as [found | e].
  2: { inversion Hrun; subst. destruct (on_exception_not_success _ Hok). }
  rewrite run_lift_bind in Hrun.
  destruct (py_iter found) as [blocks | e].
  2: { inversion Hrun; subst. destruct (on_exception_not_success _ Hok). }
  rewrite run_lift_bind in Hrun.
  destruct (for_each_maybe block_entry blocks) as [content | e] eqn:Hcontent.
  2: { inversion Hrun; subst. destruct (on_exception_not_success _ Hok). }
  rewrite run_lift_bind in Hrun.
  destruct (py_item page "url") as [url | e].
  2: { inversion Hrun; subst. destruct (on_exception_not_success _ Hok). }
  rewrite run_lift_bind in Hrun.
  destruct (py_get page "last_edited_time" VNone) as [last_edited | e].
  2: { inversion Hrun; subst. destruct (on_exception_not_success _ Hok). }
  cbn in Hrun. inversion Hrun; subst.
  exists content. split; [reflexivity |].
  exact (for_each_maybe_Forall has_text block_entry block_entry_has_text _ _ Hcontent).
Qed.

Lemma get_page_content_texts_nonempty_witness :
  exists content,
    field (fst (get_page_content "p1" three_blocks [])) "content"
      = Some (VList content) /\
    Forall has_text content.
Proof.
  apply (get_page_content_texts_nonempty "p1" three_blocks []
           (fst (get_page_content "p1" three_blocks []))
           (snd (get_page_content "p1" three_blocks []))).
  - reflexivity.
  - reflexivity.
Defined.

Lemma for_each_fragment_text_parts (fragments : list value) :
  Forall (fun rt => exists d, rt = VDict d) fragments ->
  exists parts,
    for_each fragment_text fragments = Ok parts /\
    (Exists odd_fragment fragments ->
     Exists (fun part => forall s, part <> VStr s) parts).
Proof.
  induction 1 as [| rt fragments [d Hrt] _ [parts [Hparts Hodd]]].
  - exists []. split; [reflexivity |]. intros H. inversion H.
  - subst rt. cbn. rewrite Hparts. cbn. eexists. split; [reflexivity |].
    intros H. inversion H as [? ? [d' [v [Hd [Hv Hns]]]] | ? ? Hrest]; subst.
    + inversion Hd; subst d'. rewrite Hv. left. exact Hns.
    + right. apply Hodd, Hrest.
Qed.

Lemma py_join_from_odd (parts : list value) :
  Exists (fun part => forall s, part <> VStr s) parts ->
  forall i, exists msg, py_join_from i parts = Err (TypeError msg).
Proof.
  induction parts as [| part parts IH]; intros H i; [inversion H |].
  destruct part as [| b | n | bits | s | l | d];
    try (cbn; eexists; reflexivity).
  inversion H as [? ? Hs | ? ? Hrest]; subst.
  - destruct (Hs s). reflexivity.
  - destruct (IH Hrest (S i)) as [msg Hmsg]. cbn. rewrite Hmsg.
    eexists. reflexivity.
Qed.

Lemma for_each_maybe_first_error {A B} (f : A -> res (option B))
      (pre post : list A) (a : A) (e : exn) :
  Forall (fun x => exists ob, f x = Ok ob) pre ->
  f a = Err e ->
  for_each_maybe f (pre ++ a :: post) = Err e.
Proof.
  induction 1 as [| x pre [ob Hob] _ IH]; intros Ha; cbn.
  - rewrite Ha. reflexivity.
  - rewrite Hob. cbn. rewrite (IH Ha). reflexivity.
Qed.

(** X15: a block with a fragment whose [plain_text] is present but is not a
    string (a [null], say) cannot be joined: [get_page_content] then fails as
    a whole with a type error, and returns none of the page's blocks. *)
Theorem get_page_content_odd_fragment :
  forall (page_id : string) (notion : client) (hist : list event)
         (page title response block : value) (before after fragments : list value)
         (d c : list (string * value)) (ty : string),
    notion hist (PagesRetrieve page_id) = Returns page ->
    get_page_content_title page = Ok title ->
    notion (hist ++ [(PagesRetrieve page_id, Returns page)])%list
           (BlocksChildrenList page_id) = Returns response ->
    py_get response "results" (VList []) = Ok (VList (before ++ block :: after)) ->
    Forall (fun b => exists entry, block_entry b = Ok entry) before ->
    block = VDict d ->
    dict_get d "type" = Some (VStr ty) ->
    dict_get d ty = Some (VDict c) ->
    dict_get c "rich_text" = Some (VList fragments) ->
    Forall (fun rt => exists fd, rt = VDict fd) fragments ->
    Exists odd_fragment fragments ->
    exists msg,
      fst (get_page_content page_id notion hist) =
      VDict [("success", VBool false); ("error", VStr msg)].
Proof.
  intros page_id notion hist page title response block before after fragments
         d c ty Hpage Htitle Hlist Hresults Hbefore Hblock Hty Hc Hrich Hdicts Hodd.
  assert (Hentry : exists msg, block_entry block = Err (TypeError msg)).
  { subst block. unfold block_entry. cbn. rewrite Hty. cbn. rewrite Hc. cbn.
    rewrite Hrich. cbn.
    destruct (for_each_fragment_text_parts _ Hdicts) as [parts [Hparts Hexists]].
    rewrite Hparts. cbn.
    destruct (py_join_from_odd _ (Hexists Hodd) 0) as [msg Hmsg].
    unfold py_join. rewrite Hmsg. eexists. reflexivity. }
  destruct Hentry as [msg Hentry]. exists msg.
  unfold get_page_content, try_except, get_page_content_body.
  rewrite run_request_bind, Hpage, run_lift_bind, Htitle.
  rewrite run_request_bind, Hlist, run_lift_bind, Hresults.
  rewrite run_lift_bind. cbn [py_iter]. rewrite run_lift_bind.
  rewrite (for_each_maybe_first_error _ _ _ _ _ Hbefore Hentry). reflexivity.
Qed.

Lemma get_page_content_odd_fragment_witness :
  exists msg,
    fst (get_page_content "p1" odd_blocks []) =
    VDict [("success", VBool false); ("error", VStr msg)].
Proof.
  apply (get_page_content_odd_fragment "p1" odd_blocks []
           (sample_page "p1" "Minutes") (VStr "Minutes")
           (VDict [("object", VStr "list");
                   ("results",
                    VList [sample_block "heading_1" ["Agenda"];
                           odd_block;
                           sample_block "paragraph" ["Budget"]])])
           odd_block
           [sample_block "heading_1" ["Agenda"]]
           [sample_block "paragraph" ["Budget"]]
           [VDict [("type", VStr "text"); ("plain_text", VStr "a")];
            VDict [("type", VStr "equation"); ("plain_text", VNone)]]
           [("object", VStr "block");
            ("type", VStr "paragraph");
            ("paragraph",
             VDict [("rich_text",
                     VList [VDict [("type", VStr "text"); ("plain_text", VStr "a")];
                            VDict [("type", VStr "equation"); ("plain_text", VNone)]])])]
           [("rich_text",
             VList [VDict [("type", VStr "text"); ("plain_text", VStr "a")];
                    VDict [("type", VStr "equation"); ("plain_text", VNone)]])]
           "paragraph");
    try reflexivity.
  - constructor; [| constructor]. eexists. reflexivity.
  - constructor; [| constructor; [| constructor]]; eexists; reflexivity.
  - right. left. do 2 eexists. split; [reflexivity |]. split; [reflexivity |].
    intros s. discriminate.
Defined.

(** ** Titles by name and by tag *)

Lemma dict_get_app_skip (pre rest : list (string * value)) (k : string) :
  Forall (fun kv => fst kv <> k) pre ->
  dict_get (pre ++ rest) k = dict_get rest k.
Proof.
  induction 1 as [| [k' v] pre Hk _ IH]; [reflexivity |].
  cbn in *. destruct (String.eqb k k') eqn:Heq; [| exact IH].
  apply String.eqb_eq in Heq. congruence.
Qed.

(** X16: [search_pages] reads the same title as [get_page_content] and
    [get_recent_pages], or raises the same error, on every page that has no
    property named ["title"], and on every page whose property named
    ["title"] is the first one to hold a title. *)
Theorem title_blocks_agree :
  forall (page : value) (props : list (string * value)),
    properties_of page props ->
    dict_get props "title" = None \/
    (exists pre d post,
        props = (pre ++ ("title", VDict d) :: post)%list /\
        Forall (fun kv => untitled (snd kv)) pre /\
        Forall (fun kv => fst kv <> "title") pre /\
        dict_get d "type" = Some (VStr "title") /\
        truthy (title_field d) = true) ->
    search_pages_title page = get_page_content_title page /\
    search_pages_title page = get_recent_pages_title page.
Proof.
  intros page props Hpage Hcase.
  destruct (scan_title _ _ Hpage) as [H1 H2]. rewrite H1, H2.
  assert (Hgoal : search_pages_title page = find_title props); [| auto].
  destruct Hpage as [entries [Hp [Hsome | [Hnone Hnil]]]]; subst page.
  2: { subst props. unfold search_pages_title. cbn. rewrite Hnone. cbn.
       rewrite ?Hnone. reflexivity. }
  unfold search_pages_title. cbn. rewrite Hsome. cbn.
  destruct Hcase as [Hnamed | [pre [d [post [Hprops [Hpre [Hkeys [Hty Htruthy]]]]]]]].
  - rewrite Hnamed. cbn. rewrite ?Hsome. reflexivity.
  - assert (Hnamed : dict_get props "title" = Some (VDict d)).
    { rewrite Hprops, (dict_get_app_skip _ _ _ Hkeys). reflexivity. }
    rewrite Hnamed. cbn. fold (title_field d). rewrite Htruthy.
    rewrite Hprops, (find_title_skip _ _ Hpre). cbn. rewrite Hty. cbn.
    fold (title_field d). rewrite Htruthy. reflexivity.
Qed.

Lemma title_blocks_agree_witness :
  search_pages_title (sample_page "p1" "Home") =
    get_page_content_title (sample_page "p1" "Home") /\
  search_pages_title (sample_page "p1" "Home") =
    get_recent_pages_title (sample_page "p1" "Home").
Proof.
  apply (title_blocks_agree (sample_page "p1" "Home")
           [("title",
             VDict [("id", VStr "title");
                    ("type", VStr "title");
                    ("title", VList [VDict [("type", VStr "text");
                                            ("plain_text", VStr "Home")]])])]).
  - eexists. split; [reflexivity |]. left. reflexivity.
  - right. exists [], [("id", VStr "title");
                      ("type", VStr "title");
                      ("title", VList [VDict [("type", VStr "text");
                                              ("plain_text", VStr "Home")]])], [].
    repeat split; try reflexivity; constructor.
Defined.

(** ** The fallback parent *)

(** X17: when [create_page] has no parent and the first hit of its search is
    a mapping without an [id], it gives up with the failure envelope of the
    missing key and creates nothing: the search is the only call. *)
Theorem create_page_hit_without_id :
  forall (title content : string) (notion : client) (hist : list event)
         (search_results : value) (first : list (string * value))
         (others : list value),
    notion hist (Search [("filter", page_filter); ("page_size", VInt 1)])
      = Returns search_results ->
    py_item search_results "results" = Ok (VList (VDict first :: others)) ->
    dict_get first "id" = None ->
    create_page title content None notion hist =
    (VDict [("success", VBool false); ("error", VStr "'id'")],
     [(Search [("filter", page_filter); ("page_size", VInt 1)],
       Returns search_results)]).
Proof.
  intros title content notion hist search_results first others
         Hsearch Hresults Hid.
  unfold create_page, try_except, create_page_body. cbn [given].
  rewrite run_request_bind, Hsearch, run_lift_bind.
  assert (Hget : py_get search_results "results" VNone
                 = Ok (VList (VDict first :: others))).
  { destruct search_results; try discriminate Hresults. cbn in *.
    destruct (dict_get entries "results"); [congruence | discriminate]. }
  rewrite Hget. cbn [truthy].
  rewrite run_lift_bind, Hresults, run_lift_bind. cbn [py_first].
  rewrite run_lift_bind. cbn [py_item]. rewrite Hid. reflexivity.
Qed.

Lemma create_page_hit_without_id_witness :
  create_page "Notes" "hello" None anonymous_hit [] =
  (VDict [("success", VBool false); ("error", VStr "'id'")],
   [(Search [("filter", page_filter); ("page_size", VInt 1)],
     Returns (VDict [("object", VStr "list");
                     ("results", VList [VDict [("object", VStr "page")]])]))]).
Proof.
  apply (create_page_hit_without_id "Notes" "hello" anonymous_hit []
           (VDict [("object", VStr "list");
                   ("results", VList [VDict [("object", VStr "page")]])])
           [("object", VStr "page")] []); reflexivity.
Defined.
